(** * pyrpl/modules.py: module lifecycle, ownership and register codec

    A shallow embedding of [pyrpl/modules.py].  The instance modelled is a
    [HardwareModule] (the class whose objects are arbitrated between owners
    and which carries the register codec); the methods it inherits from
    [BaseModule] and the [setup] generated by [ModuleMetaClass.__init__] are
    modelled as written there.

    Python objects are modelled as follows.
    - An attribute value is a [value] (None, bool, int, str).
    - A dict with string keys (keyword arguments, a config branch) is a
      [gmap string value].
    - A call either returns or raises; both leave a module state behind, so
      a call yields an [outcome] carrying the state in either case.
    - The call depth Python still allows is a [nat]; running out of it is
      [RecursionError]. *)

From stdpp Require Import gmap strings list fin_maps pretty.
From Stdlib Require Import ZArith Lia.

Local Open Scope Z_scope.

(** ** Values, exceptions, events *)

Inductive value :=
| VNone
| VBool (b : bool)
| VInt (z : Z)
| VStr (s : string).

(** Python exceptions raised in [modules.py] or by the built-ins it calls. *)
Inductive exn :=
| ValueError (msg : string)
| KeyError (arg : value)
| AttributeError (msg : string)
| TypeError (msg : string)
| RecursionError
| SetupError (msg : string).

(** The result of a pure Python expression that may raise. *)
Inductive res (A : Type) :=
| Return (a : A)
| Throw (e : exn).
Arguments Return {A} a.
Arguments Throw {A} e.

Definition res_bind {A B : Type} (r : res A) (k : A → res B) : res B :=
  match r with
  | Return a => k a
  | Throw e => Throw e
  end.

(** ** Register codec (lines 497-508) *)

(** [np.uint32(v)]: the 32-bit unsigned register word holding [v].  A
    value from [2 ^ 32] on does not fit; it is taken modulo [2 ^ 32]. *)
Definition np_uint32 (v : Z) : Z := v `mod` 2 ^ 32.

(** [HardwareModule._to_pyint].  [2 ** bitlength] is a float for a negative
    [bitlength], on which [&] raises TypeError; [>>] by a negative count
    raises ValueError. *)
Definition _to_pyint (v bitlength : Z) : res Z :=
  if bitlength <? 0 then Throw (TypeError "unsupported operand type(s) for &")
  else
    let v := Z.land v (2 ^ bitlength - 1) in
    if bitlength - 1 <? 0 then Throw (ValueError "negative shift count")
    else if Z.shiftr v (bitlength - 1) =? 0 then Return v
    else Return (v - 2 ^ bitlength).

(** [HardwareModule._from_pyint]. *)
Definition _from_pyint (v bitlength : Z) : res Z :=
  if bitlength <? 0 then Throw (TypeError "unsupported operand type(s) for &")
  else
    let v := if v <? 0 then v + 2 ^ bitlength else v in
    let v := Z.land v (2 ^ bitlength - 1) in
    Return (np_uint32 v).

(** Encoding followed by decoding at the same width. *)
Definition roundtrip (v bitlength : Z) : res Z :=
  res_bind (_from_pyint v bitlength) (λ raw, _to_pyint raw bitlength).

(** ** Classes, config store and instances *)

#[global] Instance value_eq_dec : EqDecision value.
Proof. solve_decision. Defined.

(** [str(v)], as the [%s] of an error message formats it. *)
Definition str (v : value) : string :=
  match v with
  | VNone => "None"
  | VBool true => "True"
  | VBool false => "False"
  | VInt z => pretty z
  | VStr s => s
  end.

(** Truth value of an object, as [if] reads it. *)
Definition truthy (v : value) : bool :=
  match v with
  | VNone => false
  | VBool b => b
  | VInt z => negb (z =? 0)
  | VStr s => negb (bool_decide (s = ""))
  end.

(** What a name denotes on the class of an instance, as far as assignment
    is concerned. *)
Inductive member :=
| MPlain             (* a method or a plain class attribute *)
| MReadOnlyProperty  (* a property without setter: c, c_states, states, pyrpl *)
| MOwnerProperty     (* the property owner, lines 367-389 *)
| MAttribute.        (* a BaseAttribute descriptor *)

#[global] Instance member_eq_dec : EqDecision member.
Proof. solve_decision. Defined.

(** Modelled from the spec: the widget class of [widgets/module_widgets.py],
    which this file imports.  It is given by the default values its
    constructor writes into the module (the presentation-default
    initialization that [create_widget] guards against, lines 335-336) and
    by whether the constructor raises in the end. *)
Record widget_class := {
  gui_defaults : list (string * value);
  init_error : option exn
}.

(** A subclass of [HardwareModule].  [members] lists every name that
    [hasattr(cls, name)] finds, those of [HardwareModule_members] below
    among them; [cls_name] is the class attribute [name]; [_setup] is the
    routine of the derived class, which prepares the device from the
    current attribute values and returns ([None]) or raises. *)
Record pyclass := {
  __name__ : string;
  members : gmap string member;
  cls_name : value;
  _setup_attributes : list string;
  _callback_attributes : list string;
  _setup : gmap string value → option exn;
  _widget_class : widget_class
}.

(** The section [(section_name + 's')] of the parent's config: one branch
    per instance name and, beside them, the branch [states] of named
    snapshots.  In the source the named states are the entry of the same
    dict under the key [states]; the two fields are that dict for every
    instance whose name is not [states], and what is proved of the named
    states is proved of such instances. *)
Record manager_section := {
  instances : gmap string (gmap string value);
  states : option (gmap string (gmap string value))
}.

Inductive event :=
| EvSet (key : string) (v : value)        (* a descriptor stored a value *)
| EvSave (key : string) (v : value)       (* ... and saved it to the config *)
| EvCallback                              (* [_callback] was invoked *)
| EvSetup                                 (* the class's [_setup] ran *)
| EvOwnershipChanged (old new : value)    (* the hook [ownership_changed] ran *)
| EvChangeOwnership                       (* [change_ownership.emit()] *)
| EvWidget.                               (* the widget class was called *)

(** An instance.  The fields [name] to [_owner] are the entries of the
    instance dictionary that the methods below read; [__dict__] holds its
    other entries; [values] is what the attribute descriptors currently
    hold; [parent_c] is the manager section in the parent's config, absent
    until first used; [trace] lists what happened, latest first. *)
Record module := {
  __class__ : pyclass;
  name : string;
  _callback_active : bool;
  _autosave_active : bool;
  _owner : value;
  values : gmap string value;
  __dict__ : gmap string value;
  parent_c : option manager_section;
  trace : list event
}.

Definition set_name (s : string) (m : module) : module :=
  {| __class__ := __class__ m; name := s;
     _callback_active := _callback_active m;
     _autosave_active := _autosave_active m; _owner := _owner m;
     values := values m; __dict__ := __dict__ m; parent_c := parent_c m;
     trace := trace m |}.

Definition set_callback_active (b : bool) (m : module) : module :=
  {| __class__ := __class__ m; name := name m;
     _callback_active := b;
     _autosave_active := _autosave_active m; _owner := _owner m;
     values := values m; __dict__ := __dict__ m; parent_c := parent_c m;
     trace := trace m |}.

Definition set_autosave_active (b : bool) (m : module) : module :=
  {| __class__ := __class__ m; name := name m;
     _callback_active := _callback_active m;
     _autosave_active := b; _owner := _owner m;
     values := values m; __dict__ := __dict__ m; parent_c := parent_c m;
     trace := trace m |}.

Definition set_owner (v : value) (m : module) : module :=
  {| __class__ := __class__ m; name := name m;
     _callback_active := _callback_active m;
     _autosave_active := _autosave_active m; _owner := v;
     values := values m; __dict__ := __dict__ m; parent_c := parent_c m;
     trace := trace m |}.

Definition set_values (vs : gmap string value) (m : module) : module :=
  {| __class__ := __class__ m; name := name m;
     _callback_active := _callback_active m;
     _autosave_active := _autosave_active m; _owner := _owner m;
     values := vs; __dict__ := __dict__ m; parent_c := parent_c m;
     trace := trace m |}.

Definition set_dict (d : gmap string value) (m : module) : module :=
  {| __class__ := __class__ m; name := name m;
     _callback_active := _callback_active m;
     _autosave_active := _autosave_active m; _owner := _owner m;
     values := values m; __dict__ := d; parent_c := parent_c m;
     trace := trace m |}.

Definition set_parent_c (c : option manager_section) (m : module) : module :=
  {| __class__ := __class__ m; name := name m;
     _callback_active := _callback_active m;
     _autosave_active := _autosave_active m; _owner := _owner m;
     values := values m; __dict__ := __dict__ m; parent_c := c;
     trace := trace m |}.

Definition log (e : event) (m : module) : module :=
  {| __class__ := __class__ m; name := name m;
     _callback_active := _callback_active m;
     _autosave_active := _autosave_active m; _owner := _owner m;
     values := values m; __dict__ := __dict__ m; parent_c := parent_c m;
     trace := e :: trace m |}.

(** A call returns ([Ok]) or raises ([Raise]); the state is kept in both. *)
Inductive outcome :=
| Ok (m : module)
| Raise (e : exn) (m : module).

Definition state_of (o : outcome) : module :=
  match o with
  | Ok m => m
  | Raise _ m => m
  end.

Definition raised (o : outcome) : option exn :=
  match o with
  | Ok _ => None
  | Raise e _ => Some e
  end.

(** Sequencing: the rest runs only when the first part returned. *)
Definition bind (o : outcome) (k : module → outcome) : outcome :=
  match o with
  | Ok m => k m
  | Raise e m => Raise e m
  end.

(** [try: ... finally: f]: [f] runs on both exits, the exception goes on. *)
Definition finally (f : module → module) (o : outcome) : outcome :=
  match o with
  | Ok m => Ok (f m)
  | Raise e m => Raise e (f m)
  end.

(** *** The config branch (lines 344-358 and 251-258) *)

Definition empty_section : manager_section :=
  {| instances := ∅; states := None |}.

(** The manager section after [c] has run: created when the parent had
    none, and given an empty branch for this instance when it had none. *)
Definition section_of (m : module) : manager_section :=
  let sec := default empty_section (parent_c m) in
  match instances sec !! name m with
  | Some _ => sec
  | None => {| instances := <[name m := ∅]> (instances sec);
               states := states sec |}
  end.

(** The content [self.c._dict] of the instance's branch. *)
Definition c_dict (m : module) : gmap string value :=
  default ∅ (instances (section_of m) !! name m).

(** The property [c]: the state with the branch in place, and its content. *)
Definition c (m : module) : module * gmap string value :=
  (set_parent_c (Some (section_of m)) m, c_dict m).

(** [self.c[key] = v]. *)
Definition c_setitem (key : string) (v : value) (m : module) : module :=
  let sec := section_of m in
  set_parent_c
    (Some {| instances := <[name m := <[key := v]> (c_dict m)]> (instances sec);
             states := states sec |}) m.

(** The property [c_states]. *)
Definition c_states (m : module)
  : module * gmap string (gmap string value) :=
  let sec := section_of m in
  let sts := default ∅ (states sec) in
  (set_parent_c (Some {| instances := instances sec; states := Some sts |}) m,
   sts).

(** *** Attribute descriptors *)

(** Modelled from the spec: [BaseAttribute.__set__] of [attributes.py],
    which this file imports.  The value is stored; it is saved to the config
    branch when autosave is active and the attribute is a setup attribute
    (line 157); the callback hook runs after the write when callbacks are
    active and the attribute is a callback attribute (lines 162-164). *)
Definition attribute_set (_callback : module → outcome)
    (key : string) (v : value) (m : module) : outcome :=
  let m := log (EvSet key v) (set_values (<[key := v]> (values m)) m) in
  let m :=
    if _autosave_active m && bool_decide (key ∈ _setup_attributes (__class__ m))
    then log (EvSave key v) (c_setitem key v m)
    else m in
  if _callback_active m && bool_decide (key ∈ _callback_attributes (__class__ m))
  then _callback (log EvCallback m)
  else Ok m.

(** [BaseModule._callback] (lines 360-365): [self.setup()]. *)
Definition _callback (setup : gmap string value → module → outcome)
    (m : module) : outcome :=
  setup ∅ m.

(** *** Ownership (lines 367-389 and 444-452) *)

(** [HardwareModule.ownership_changed]: [pass]. *)
Definition ownership_changed (old new : value) (m : module) : module :=
  log (EvOwnershipChanged old new) m.

(** Binding the arguments of [self.setup] when a dict is passed as its
    keywords: the generated [setup] has the one named parameter [self], and
    a key of that name in the dict is a second value for it, which raises
    [TypeError] before the body is entered. *)
Definition call_setup_with (setup : gmap string value → module → outcome)
    (dict : gmap string value) (m : module) : outcome :=
  match dict !! "self" with
  | Some _ =>
      Raise (TypeError "setup() got multiple values for keyword argument 'self'") m
  | None => setup dict m
  end.

(** The setter of the property [owner]. *)
Definition owner_setter (setup : gmap string value → module → outcome)
    (val : value) (m : module) : outcome :=
  let old := _owner m in
  let m := set_owner val m in
  let m :=
    match val with
    | VNone => set_autosave_active true m
    | _ => set_autosave_active false m
    end in
  let m := ownership_changed old val m in
  let r :=
    match val with
    | VNone => let '(m, dict) := c m in call_setup_with setup dict m
    | _ => Ok m
    end in
  bind r (λ m, Ok (log EvChangeOwnership m)).

(** *** Assignment (lines 468-483) *)

(** Storing into the instance dictionary. *)
Definition instance_store (key : string) (v : value) (m : module) : module :=
  if bool_decide (key = "_callback_active") then set_callback_active (truthy v) m
  else if bool_decide (key = "_autosave_active") then set_autosave_active (truthy v) m
  else if bool_decide (key = "_owner") then set_owner v m
  else
    match bool_decide (key = "name"), v with
    | true, VStr s => set_name s m
    | _, _ => set_dict (<[key := v]> (__dict__ m)) m
    end.

(** [object.__setattr__], reached through [super(BaseModule, self)]: a data
    descriptor of the class takes the assignment, anything else goes to the
    instance dictionary. *)
Definition object_setattr (setup : gmap string value → module → outcome)
    (key : string) (v : value) (m : module) : outcome :=
  match members (__class__ m) !! key with
  | Some MAttribute => attribute_set (_callback setup) key v m
  | Some MOwnerProperty => owner_setter setup v m
  | Some MReadOnlyProperty => Raise (AttributeError "can't set attribute") m
  | Some MPlain | None => Ok (instance_store key v m)
  end.

Definition startswith (s pre : string) : bool := String.prefix pre s.

(** [HardwareModule.__setattr__]. *)
Definition __setattr__ (setup : gmap string value → module → outcome)
    (key : string) (v : value) (m : module) : outcome :=
  if startswith key "_"
     || bool_decide (key ∈ dom (__dict__ m))
     || bool_decide (is_Some (members (__class__ m) !! key))
  then object_setattr setup key v m
  else
    Raise (ValueError ("New module attributes may not be set at runtime."
                       +:+ " Attribute " +:+ key +:+ " is not defined in class "
                       +:+ __name__ (__class__ m))) m.

(** *** Bulk set and setup (lines 218-232 and 86-95) *)

(** The loop of [set_setup_attributes]: the state it reaches (or the
    exception of an assignment) and what is left of [kwds]. *)
Fixpoint set_attributes_loop (setup : gmap string value → module → outcome)
    (keys : list string) (kwds : gmap string value) (m : module)
  : outcome * gmap string value :=
  match keys with
  | [] => (Ok m, kwds)
  | key :: keys =>
      match kwds !! key with
      | Some v =>
          match __setattr__ setup key v m with
          | Ok m => set_attributes_loop setup keys (delete key kwds) m
          | Raise e m => (Raise e m, delete key kwds)
          end
      | None => set_attributes_loop setup keys kwds m
      end
  end.

(** [kwds[k]] on a dict whose keys are all strings. *)
Definition kwds_getitem (kwds : gmap string value) (k : value) : res value :=
  match k with
  | VStr s =>
      match kwds !! s with
      | Some v => Return v
      | None => Throw (KeyError k)
      end
  | _ => Throw (KeyError k)
  end.

(** [BaseModule.set_setup_attributes].  The argument of the final [raise]
    is evaluated first, and it reads [kwds[0]]. *)
Definition set_setup_attributes (setup : gmap string value → module → outcome)
    (kwds : gmap string value) (m : module) : outcome :=
  let old_callback_active := _callback_active m in
  let m := set_callback_active false m in
  let '(r, kwds) :=
    set_attributes_loop setup (_setup_attributes (__class__ m)) kwds m in
  bind (finally (set_callback_active old_callback_active) r) (λ m,
    if bool_decide (kwds = ∅) then Ok m
    else
      match kwds_getitem kwds (VInt 0) with
      | Return v =>
          Raise (ValueError ("Attribute " +:+ str v +:+ " of module "
                             +:+ name m +:+ " doesn't exist.")) m
      | Throw e => Raise e m
      end).

(** [if hasattr(self, '_setup'): self._setup()]; [BaseModule] defines
    [_setup], so the test holds for every instance. *)
Definition call_setup_routine (m : module) : outcome :=
  let m := log EvSetup m in
  match _setup (__class__ m) (values m) with
  | Some e => Raise e m
  | None => Ok m
  end.

(** The [setup] that [ModuleMetaClass.__init__] generates; [setup] stands
    for the calls to [self.setup] made from inside. *)
Definition setup_body (setup : gmap string value → module → outcome)
    (kwds : gmap string value) (m : module) : outcome :=
  let m := set_callback_active false m in
  finally (set_callback_active true)
    (bind (set_setup_attributes setup kwds m) call_setup_routine).

(** [self.setup] called with keywords [kwds], with [d] nested calls of
    [setup] still allowed. *)
Fixpoint setup (d : nat) (kwds : gmap string value) (m : module) : outcome :=
  match d with
  | O => Raise RecursionError m
  | S d => setup_body (setup d) kwds m
  end.

(** [setattr(self, key, v)] from outside. *)
Definition setattr (d : nat) (key : string) (v : value) (m : module) : outcome :=
  __setattr__ (setup d) key v m.

(** [self.owner = val]'s setter, and [free]. *)
Definition set_owner_to (d : nat) (val : value) (m : module) : outcome :=
  owner_setter (setup d) val m.

Definition free (d : nat) (m : module) : outcome :=
  set_owner_to d VNone m.

(** *** Config-backed operations (lines 240-249 and 269-279) *)

(** [BaseModule.load_setup_attributes]. *)
Definition load_setup_attributes (d : nat) (m : module) : outcome :=
  let '(m, dict) := c m in
  let dic :=
    filter (λ kv, kv.1 ∈ _setup_attributes (__class__ m)) dict in
  set_setup_attributes (setup d) dic m.

(** [BaseModule.load_state]. *)
Definition load_state (d : nat) (state : string)
    (state_branch : option (gmap string (gmap string value)))
    (m : module) : outcome :=
  let '(m, branch) :=
    match state_branch with
    | None => c_states m
    | Some b => (m, b)
    end in
  match branch !! state with
  | None =>
      Raise (KeyError (VStr ("State " +:+ state
                             +:+ " doesn't exist for modules "
                             +:+ str (cls_name (__class__ m))))) m
  | Some stored => setup d stored m
  end.

(** *** Widget and construction (lines 331-342 and 182-201) *)

Fixpoint widget_init (d : nat) (writes : list (string * value)) (m : module)
  : outcome :=
  match writes with
  | [] => Ok m
  | (key, v) :: writes => bind (setattr d key v m) (widget_init d writes)
  end.

(** [self._widget_class(self.name, self)]. *)
Definition call_widget_class (d : nat) (m : module) : outcome :=
  let w := _widget_class (__class__ m) in
  bind (widget_init d (gui_defaults w) (log EvWidget m)) (λ m,
    match init_error w with
    | Some e => Raise e m
    | None => Ok m
    end).

(** [BaseModule.create_widget]. *)
Definition create_widget (d : nat) (m : module) : outcome :=
  let m := set_callback_active false m in
  let m := set_autosave_active false m in
  finally (λ m, set_autosave_active true (set_callback_active true m))
    (bind (call_widget_class d m) (λ m,
       Ok (instance_store "_widget" (VStr (name m)) m))).

(** [BaseModule._init_module]: [pass]. *)
Definition _init_module (m : module) : module := m.

(** [HardwareModule.__init__] followed by [BaseModule.__init__]; [vals] is
    what the descriptors hold at that time. *)
Definition __init__ (cls : pyclass) (parent_c : option manager_section)
    (name : string) (vals : gmap string value) : module :=
  let m :=
    {| __class__ := cls; name := name;
       _callback_active := true; _autosave_active := true; _owner := VNone;
       values := vals; __dict__ := ∅; parent_c := parent_c; trace := [] |} in
  let m := set_autosave_active false m in
  let m := _init_module m in
  set_autosave_active true m.

(** *** Snapshots and named states (lines 209-216, 260-267, 303-305) *)

(** Modelled from the spec: [BaseAttribute.__get__] of [attributes.py]
    gives the value the descriptor holds; asking for an attribute that
    holds none raises [AttributeError], as [getattr] does. *)
Definition getattr (key : string) (m : module) : res value :=
  match values m !! key with
  | Some v => Return v
  | None =>
      Throw (AttributeError ("'" +:+ __name__ (__class__ m)
                             +:+ "' object has no attribute '" +:+ key +:+ "'"))
  end.

(** The loop of [get_setup_attributes], filling the ordered dict [kwds]. *)
Fixpoint get_attributes_loop (keys : list string) (kwds : gmap string value)
    (m : module) : res (gmap string value) :=
  match keys with
  | [] => Return kwds
  | attr :: keys =>
      res_bind (getattr attr m) (λ v,
        get_attributes_loop keys (<[attr := v]> kwds) m)
  end.

(** [BaseModule.get_setup_attributes]. *)
Definition get_setup_attributes (m : module) : res (gmap string value) :=
  get_attributes_loop (_setup_attributes (__class__ m)) ∅ m.

(** [state_branch[name] = kwds] on the branch [c_states] of the config. *)
Definition c_states_setitem (state : string) (kwds : gmap string value)
    (m : module) : module :=
  let sec := section_of m in
  set_parent_c
    (Some {| instances := instances sec;
             states := Some (<[state := kwds]> (default ∅ (states sec))) |}) m.

(** [BaseModule.save_state]: the state left, and the content of the branch
    written to.  A branch given by the caller is one outside the section of
    this module. *)
Definition save_state (state : string)
    (state_branch : option (gmap string (gmap string value)))
    (m : module) : outcome * gmap string (gmap string value) :=
  let '(m, branch) :=
    match state_branch with
    | None => c_states m
    | Some b => (m, b)
    end in
  match get_setup_attributes m with
  | Throw e => (Raise e m, branch)
  | Return kwds =>
      (Ok match state_branch with
          | None => c_states_setitem state kwds m
          | Some _ => m
          end,
       <[state := kwds]> branch)
  end.

(** The property [states]: the names under [c_states]. *)
Definition state_names (m : module) : module * gset string :=
  let '(m, branch) := c_states m in (m, dom branch).

(** *** The context manager (lines 391-407) *)

Definition __enter__ (m : module) : module := m.

(** [__exit__]: [self.owner = None]; it returns [None]. *)
Definition __exit__ (d : nat) (m : module) : outcome := set_owner_to d VNone m.

(** [with module as mod: body]: [__exit__] runs on both exits of the body;
    as it returns [None], an exception of the body goes on, unless
    [__exit__] raises one itself. *)
Definition with_module (d : nat) (body : module → outcome) (m : module)
  : outcome :=
  match body (__enter__ m) with
  | Ok m => __exit__ d m
  | Raise e m =>
      match __exit__ d m with
      | Ok m => Raise e m
      | Raise e' m => Raise e' m
      end
  end.

(** *** Naming the descriptors (lines 59-70) *)

(** An entry of the class dictionary: an attribute descriptor, given as the
    identity of the descriptor object, or anything else. *)
Inductive class_entry :=
| EAttribute (id : nat)
| EOther.

(** [ModuleMetaClass.__new__]: the loop [attr.name = name] over the items of
    the class dictionary, in the order the dictionary yields them; [names]
    holds the field [name] of every descriptor object. *)
Fixpoint name_attributes (classDict : list (string * class_entry))
    (names : gmap nat string) : gmap nat string :=
  match classDict with
  | [] => names
  | (name, EAttribute id) :: classDict =>
      name_attributes classDict (<[id := name]> names)
  | (_, EOther) :: classDict => name_attributes classDict names
  end.

(** ** Example classes and instances *)

(** What [hasattr] finds on [HardwareModule] itself, from the class bodies
    of [BaseModule] (lines 125-419) and [HardwareModule] (lines 422-508);
    what [object] adds starts with an underscore and is left out. *)
Definition HardwareModule_members : gmap string member :=
  list_to_map
    [ ("_curve_class", MPlain); ("_signal_launcher", MPlain);
      ("_section_name", MPlain); ("_widget_class", MPlain);
      ("_setup_attributes", MPlain); ("_gui_attributes", MPlain);
      ("_callback_attributes", MPlain); ("_callback_active", MPlain);
      ("_autosave_active", MPlain); ("_widget", MPlain); ("_owner", MPlain);
      ("pyrpl_config", MPlain); ("name", MPlain); ("parent", MPlain);
      ("_init_module", MPlain); ("get_setup_attributes", MPlain);
      ("set_setup_attributes", MPlain); ("load_setup_attributes", MPlain);
      ("c_states", MReadOnlyProperty); ("save_state", MPlain);
      ("load_state", MPlain); ("_save_curve", MPlain); ("free", MPlain);
      ("states", MReadOnlyProperty); ("_setup", MPlain); ("help", MPlain);
      ("create_widget", MPlain); ("c", MReadOnlyProperty);
      ("_callback", MPlain); ("owner", MOwnerProperty);
      ("pyrpl", MReadOnlyProperty); ("setup", MPlain);
      ("ownership_changed", MPlain);
      ("_frequency_correction", MReadOnlyProperty);
      ("_reads", MPlain); ("_writes", MPlain); ("_read", MPlain);
      ("_write", MPlain); ("_to_pyint", MPlain); ("_from_pyint", MPlain);
      ("__init__", MPlain); ("__enter__", MPlain); ("__exit__", MPlain);
      ("__setattr__", MPlain);
      (* found through the metaclass *)
      ("make_setup_docstring", MPlain); ("mro", MPlain) ].

Definition no_widget : widget_class :=
  {| gui_defaults := []; init_error := None |}.

(** A subclass with two attribute descriptors [x] and [y], both setup and
    callback attributes, and the inherited [_setup] ([pass]). *)
Definition demo_class : pyclass :=
  {| __name__ := "Demo";
     members := <["x" := MAttribute]> (<["y" := MAttribute]> HardwareModule_members);
     cls_name := VNone;
     _setup_attributes := ["x"; "y"];
     _callback_attributes := ["x"; "y"];
     _setup := λ _, None;
     _widget_class := no_widget |}.

(** The same subclass with a [_setup] that refuses a negative [y]. *)
Definition strict_class : pyclass :=
  {| __name__ := "Strict";
     members := members demo_class;
     cls_name := VNone;
     _setup_attributes := ["x"; "y"];
     _callback_attributes := ["x"; "y"];
     _setup := λ vals,
       match vals !! "y" with
       | Some (VInt z) => if z <? 0 then Some (SetupError "y < 0") else None
       | _ => None
       end;
     _widget_class := no_widget |}.

(** A config section in which instance [demo0] has [x = 5] saved. *)
Definition demo_section : manager_section :=
  {| instances := {[ "demo0" := {[ "x" := VInt 5 ]} ]};
     states := Some {[ "idle" := {[ "x" := VInt 1; "y" := VInt 2 ]} ]} |}.

(** The same with an entry [gain] that no setup attribute answers to. *)
Definition stale_section : manager_section :=
  {| instances := {[ "demo0" := {[ "x" := VInt 5; "gain" := VInt 3 ]} ]};
     states := None |}.

(** The same with an entry [self]. *)
Definition self_section : manager_section :=
  {| instances := {[ "demo0" := {[ "x" := VInt 5; "self" := VInt 1 ]} ]};
     states := None |}.

Definition demo : module :=
  __init__ demo_class (Some demo_section) "demo0" {[ "x" := VInt 0; "y" := VInt 0 ]}.

Definition demo_stale : module :=
  __init__ demo_class (Some stale_section) "demo0" {[ "x" := VInt 0; "y" := VInt 0 ]}.

Definition demo_self : module :=
  __init__ demo_class (Some self_section) "demo0" {[ "x" := VInt 0; "y" := VInt 0 ]}.

Definition demo_strict : module :=
  __init__ strict_class (Some demo_section) "demo0" {[ "x" := VInt 0; "y" := VInt (-1) ]}.

(** A subclass whose widget writes a default into [x] and [y]. *)
Definition gui_class : pyclass :=
  {| __name__ := "Gui";
     members := members demo_class;
     cls_name := VNone;
     _setup_attributes := ["x"; "y"];
     _callback_attributes := ["x"; "y"];
     _setup := λ _, None;
     _widget_class :=
       {| gui_defaults := [("x", VInt 10); ("y", VInt 20)];
          init_error := None |} |}.

Definition gui_module : module :=
  __init__ gui_class (Some demo_section) "demo0" {[ "x" := VInt 0; "y" := VInt 0 ]}.

(** ** Notions used in the statements *)

(** Invariant 1 of the data model: every setup attribute is bound to a
    descriptor of the class. *)
Definition descriptors_bound (cls : pyclass) : Prop :=
  Forall (λ key, members cls !! key = Some MAttribute) (_setup_attributes cls).

(** Invariant 3 of the data model: autosave is active exactly when the
    module has no owner. *)
Definition owner_autosave_coupled (m : module) : Prop :=
  _autosave_active m = match _owner m with VNone => true | _ => false end.

(** What a descriptor does on assignment while callbacks are suppressed. *)
Definition write_quiet (key : string) (v : value) (m : module) : module :=
  let m := log (EvSet key v) (set_values (<[key := v]> (values m)) m) in
  if _autosave_active m && bool_decide (key ∈ _setup_attributes (__class__ m))
  then log (EvSave key v) (c_setitem key v m)
  else m.

(** The loop of [set_setup_attributes] when no assignment raises. *)
Fixpoint apply_quiet (keys : list string) (kwds : gmap string value)
    (m : module) : module * gmap string value :=
  match keys with
  | [] => (m, kwds)
  | key :: keys =>
      match kwds !! key with
      | Some v => apply_quiet keys (delete key kwds) (write_quiet key v m)
      | None => apply_quiet keys kwds m
      end
  end.

(** [set_setup_attributes] when no assignment raises: the loop, the flag put
    back, and the final [raise] when keys are left over. *)
Definition bulk_set (kwds : gmap string value) (m : module) : outcome :=
  let r :=
    apply_quiet (_setup_attributes (__class__ m)) kwds
      (set_callback_active false m) in
  let m' := set_callback_active (_callback_active m) r.1 in
  if bool_decide (r.2 = ∅) then Ok m' else Raise (KeyError (VInt 0)) m'.

(** The generated [setup] when no assignment raises. *)
Definition setup_quiet (kwds : gmap string value) (m : module) : outcome :=
  finally (set_callback_active true)
    (bind (bulk_set kwds (set_callback_active false m)) call_setup_routine).

(** Releasing ownership: the state in which the re-setup starts. *)
Definition released (m : module) : module :=
  (c (ownership_changed (_owner m) VNone
        (set_autosave_active true (set_owner VNone m)))).1.

(** The named states that the config holds for the class of [m]. *)
Definition saved_states (m : module) : gmap string (gmap string value) :=
  (c_states m).2.

(** Every key of [kwds] is a setup attribute of [m]. *)
Definition all_recognized (kwds : gmap string value) (m : module) : Prop :=
  map_Forall (λ k _, k ∈ _setup_attributes (__class__ m)) kwds.

(** The descriptor objects of a class dictionary, in its order. *)
Fixpoint attribute_ids (classDict : list (string * class_entry)) : list nat :=
  match classDict with
  | [] => []
  | (_, EAttribute id) :: classDict => id :: attribute_ids classDict
  | (_, EOther) :: classDict => attribute_ids classDict
  end.

(** An event by which a descriptor stores a value. *)
Definition is_set (e : event) : Prop :=
  match e with
  | EvSet _ _ => True
  | _ => False
  end.

(** Two states that differ at most in the attribute values, the config and
    the trace. *)
Definition same_frame (m m' : module) : Prop :=
  __class__ m' = __class__ m ∧ name m' = name m ∧
  _callback_active m' = _callback_active m ∧
  _autosave_active m' = _autosave_active m ∧
  _owner m' = _owner m ∧ __dict__ m' = __dict__ m.

(** An event that a descriptor logs on a suppressed write. *)
Definition is_write (e : event) : Prop :=
  match e with
  | EvSet _ _ | EvSave _ _ => True
  | _ => False
  end.

(** The guard of [__setattr__] lets a name through that the class defines. *)
Ltac pass_guard Hmem :=
  unfold __setattr__;
  rewrite (bool_decide_eq_true_2 (is_Some _)) by (rewrite Hmem; eauto);
  rewrite orb_true_r; unfold object_setattr; rewrite Hmem.

(** * Theorems *)

(** ** Register codec *)

Example roundtrip_minus_one : roundtrip (-1) 14 = Return (-1).
Proof. reflexivity. Qed.

Example from_pyint_truncates : _from_pyint (2 ^ 14) 14 = Return 0.
Proof. reflexivity. Qed.

Lemma land_mask (v w : Z) : 0 ≤ w → Z.land v (2 ^ w - 1) = v `mod` 2 ^ w.
Proof.
  intros Hw. rewrite <- Z.land_ones by done.
  by rewrite Z.ones_equiv, <- Z.sub_1_r.
Qed.

Lemma pow2_split (w : Z) : 1 ≤ w → 2 ^ w = 2 * 2 ^ (w - 1).
Proof.
  intros Hw. rewrite <- Z.pow_succ_r by lia. f_equal. lia.
Qed.

Lemma pow2_le_32 (w : Z) : 0 ≤ w ≤ 32 → 2 ^ w ≤ 2 ^ 32.
Proof. intros Hw. apply Z.pow_le_mono_r; lia. Qed.

(** Decoding a word that is already below [2 ^ w]. *)
Lemma to_pyint_small (r w : Z) :
  1 ≤ w → 0 ≤ r < 2 ^ w →
  _to_pyint r w = Return (if r <? 2 ^ (w - 1) then r else r - 2 ^ w).
Proof.
  intros Hw Hr. unfold _to_pyint.
  destruct (Z.ltb_spec w 0); [lia |].
  destruct (Z.ltb_spec (w - 1) 0); [lia |].
  rewrite land_mask by lia. rewrite Z.mod_small by lia.
  rewrite Z.shiftr_div_pow2 by lia.
  assert (0 < 2 ^ (w - 1)) by (apply Z.pow_pos_nonneg; lia).
  destruct (Z.ltb_spec r (2 ^ (w - 1))).
  - rewrite Z.div_small by lia. done.
  - destruct (Z.eqb_spec (r / 2 ^ (w - 1)) 0) as [Hq|]; [| done].
    apply Z.div_small_iff in Hq; lia.
Qed.

(** Encoding a value, as the word it yields. *)
Lemma from_pyint_word (v w : Z) :
  0 ≤ w ≤ 32 →
  _from_pyint v w = Return ((if v <? 0 then v + 2 ^ w else v) `mod` 2 ^ w).
Proof.
  intros Hw. unfold _from_pyint, np_uint32.
  destruct (Z.ltb_spec w 0); [lia |].
  rewrite land_mask by lia. f_equal.
  assert (0 < 2 ^ w) by (apply Z.pow_pos_nonneg; lia).
  pose proof (pow2_le_32 w Hw).
  pose proof (Z.mod_pos_bound (if v <? 0 then v + 2 ^ w else v) (2 ^ w)).
  apply Z.mod_small. lia.
Qed.

(** C2 (amended): for every width from 1 to 32 and every [v] of the signed
    range of that width, decoding the encoding of [v] gives [v] back; for
    [v] of the unsigned range the encoding is [v] itself, and decoding it
    gives [v] when [v < 2 ^ (w - 1)] and [v - 2 ^ w] otherwise. *)
Theorem codec_roundtrip (v w : Z) :
  1 ≤ w ≤ 32 →
  (- 2 ^ (w - 1) ≤ v ≤ 2 ^ (w - 1) - 1 → roundtrip v w = Return v) ∧
  (0 ≤ v ≤ 2 ^ w - 1 →
   _from_pyint v w = Return v ∧
   roundtrip v w = Return (if v <? 2 ^ (w - 1) then v else v - 2 ^ w)).
Proof.
  intros Hw.
  assert (Hpos : 0 < 2 ^ (w - 1)) by (apply Z.pow_pos_nonneg; lia).
  pose proof (pow2_split w ltac:(lia)) as Hsplit.
  split.
  - intros Hv. unfold roundtrip. rewrite from_pyint_word by lia.
    destruct (Z.ltb_spec v 0) as [Hneg | Hnn]; simpl.
    + rewrite (Z.mod_small (v + 2 ^ w)) by lia.
      rewrite to_pyint_small by lia.
      destruct (Z.ltb_spec (v + 2 ^ w) (2 ^ (w - 1))); [lia |].
      f_equal. lia.
    + rewrite (Z.mod_small v) by lia.
      rewrite to_pyint_small by lia.
      destruct (Z.ltb_spec v (2 ^ (w - 1))); [done | lia].
  - intros Hv.
    assert (Henc : _from_pyint v w = Return v).
    { rewrite from_pyint_word by lia.
      destruct (Z.ltb_spec v 0); [lia |]. by rewrite Z.mod_small by lia. }
    split; [done |].
    unfold roundtrip. rewrite Henc. simpl. apply to_pyint_small; lia.
Qed.

Lemma codec_roundtrip_witness :
  roundtrip (-8192) 14 = Return (-8192) ∧ _from_pyint 16383 14 = Return 16383.
Proof.
  destruct (codec_roundtrip (-8192) 14 ltac:(lia)) as [Hs _].
  destruct (codec_roundtrip 16383 14 ltac:(lia)) as [_ Hu].
  split; [apply Hs; simpl; lia | apply Hu; simpl; lia].
Defined.

(** C2, as stated, fails on the upper half of the unsigned range: 8192 is
    within [0, 2^14 - 1], and its encoding decodes to -8192. *)
Lemma codec_roundtrip_unsigned_fails :
  0 ≤ 8192 ≤ 2 ^ 14 - 1 ∧ roundtrip 8192 14 ≠ Return 8192.
Proof. split; [simpl; lia | by vm_compute]. Qed.


(** ** Suppressed writes and the loop of the bulk set *)

Lemma same_frame_refl m : same_frame m m.
Proof. by repeat split. Qed.

Lemma same_frame_trans m1 m2 m3 :
  same_frame m1 m2 → same_frame m2 m3 → same_frame m1 m3.
Proof.
  intros (? & ? & ? & ? & ? & ?) (? & ? & ? & ? & ? & ?).
  repeat split; congruence.
Qed.

Lemma write_quiet_frame key v m : same_frame m (write_quiet key v m).
Proof.
  unfold write_quiet; simpl. by destruct (_ && _); repeat split.
Qed.

Lemma write_quiet_values key v m :
  values (write_quiet key v m) = <[key := v]> (values m).
Proof. unfold write_quiet; simpl. by destruct (_ && _). Qed.

Lemma write_quiet_trace key v m :
  ∃ evs, trace (write_quiet key v m) = evs ++ trace m ∧ Forall is_write evs.
Proof.
  unfold write_quiet; simpl. destruct (_ && _); simpl.
  - exists [EvSave key v; EvSet key v]. split; [done |]. by repeat constructor.
  - exists [EvSet key v]. split; [done |]. by repeat constructor.
Qed.

(** While autosave is off a suppressed write leaves the config alone. *)
Lemma write_quiet_config key v m :
  _autosave_active m = false → parent_c (write_quiet key v m) = parent_c m.
Proof. intros H. unfold write_quiet; simpl. by rewrite H. Qed.

(** Assigning to a descriptor of the class: the suppressed write, followed
    by the callback when callbacks are active and the attribute is a
    callback attribute. *)
Lemma setattr_descriptor setup key v m :
  members (__class__ m) !! key = Some MAttribute →
  __setattr__ setup key v m
  = if _callback_active m
       && bool_decide (key ∈ _callback_attributes (__class__ m))
    then _callback setup (log EvCallback (write_quiet key v m))
    else Ok (write_quiet key v m).
Proof.
  intros Hmem. pass_guard Hmem.
  unfold attribute_set, write_quiet. simpl.
  by destruct (_autosave_active m && bool_decide _).
Qed.

(** With callbacks suppressed it is the suppressed write alone, whatever
    [setup] would do. *)
Lemma setattr_descriptor_quiet setup key v m :
  members (__class__ m) !! key = Some MAttribute →
  _callback_active m = false →
  __setattr__ setup key v m = Ok (write_quiet key v m).
Proof.
  intros Hmem Hflag. rewrite setattr_descriptor by done. by rewrite Hflag.
Qed.

Lemma apply_quiet_frame keys kwds m : same_frame m (apply_quiet keys kwds m).1.
Proof.
  revert kwds m. induction keys as [| key keys IH]; intros kwds m; simpl.
  - apply same_frame_refl.
  - destruct (kwds !! key); [| apply IH].
    eapply same_frame_trans; [apply write_quiet_frame | apply IH].
Qed.

Lemma apply_quiet_trace keys kwds m :
  ∃ evs, trace (apply_quiet keys kwds m).1 = evs ++ trace m
         ∧ Forall is_write evs.
Proof.
  revert kwds m. induction keys as [| key keys IH]; intros kwds m; simpl.
  - by exists [].
  - destruct (kwds !! key) as [v |]; [| apply IH].
    destruct (IH (delete key kwds) (write_quiet key v m)) as (evs & -> & Hevs).
    destruct (write_quiet_trace key v m) as (evs' & -> & Hevs').
    exists (evs ++ evs'). split; [by rewrite app_assoc |].
    by apply Forall_app.
Qed.

(** The keys the loop leaves in [kwds] are those outside [keys]. *)
Lemma apply_quiet_rest keys kwds m k :
  (apply_quiet keys kwds m).2 !! k
  = if bool_decide (k ∈ keys) then None else kwds !! k.
Proof.
  revert kwds m. induction keys as [| key keys IH]; intros kwds m; simpl.
  - done.
  - destruct (kwds !! key) as [v |] eqn:Hkey.
    + rewrite IH. destruct (decide (k = key)) as [-> | Hne].
      * rewrite (bool_decide_eq_true_2 (key ∈ key :: keys)) by set_solver.
        case_bool_decide; [done | apply lookup_delete_eq].
      * rewrite lookup_delete_ne by done.
        apply (f_equal (λ b : bool, if b then None else kwds !! k)).
        apply bool_decide_ext. rewrite elem_of_cons. tauto.
    + rewrite IH. destruct (decide (k = key)) as [-> | Hne].
      * rewrite (bool_decide_eq_true_2 (key ∈ key :: keys)) by set_solver.
        by case_bool_decide.
      * apply (f_equal (λ b : bool, if b then None else kwds !! k)).
        apply bool_decide_ext. rewrite elem_of_cons. tauto.
Qed.

(** The values after the loop: a key of [keys] given in [kwds] holds the
    value given, every other key holds what it held. *)
Lemma apply_quiet_values keys kwds m k :
  values (apply_quiet keys kwds m).1 !! k
  = match kwds !! k with
    | Some v => if bool_decide (k ∈ keys) then Some v else values m !! k
    | None => values m !! k
    end.
Proof.
  revert kwds m. induction keys as [| key keys IH]; intros kwds m; simpl.
  - by destruct (kwds !! k).
  - destruct (kwds !! key) as [v |] eqn:Hkey.
    + rewrite IH, write_quiet_values.
      destruct (decide (k = key)) as [-> | Hne].
      * rewrite lookup_delete_eq, lookup_insert_eq, Hkey.
        by rewrite (bool_decide_eq_true_2 (key ∈ key :: keys)) by set_solver.
      * rewrite lookup_delete_ne, lookup_insert_ne by done.
        destruct (kwds !! k); [| done].
        apply (f_equal (λ b : bool, if b then Some _ else values m !! k)).
        apply bool_decide_ext. rewrite elem_of_cons. tauto.
    + rewrite IH. destruct (decide (k = key)) as [-> | Hne].
      * by rewrite Hkey.
      * destruct (kwds !! k); [| done].
        apply (f_equal (λ b : bool, if b then Some _ else values m !! k)).
        apply bool_decide_ext. rewrite elem_of_cons. tauto.
Qed.

Lemma apply_quiet_empty keys m : apply_quiet keys ∅ m = (m, ∅).
Proof. induction keys as [| key keys IH]; simpl; [done |]. by rewrite lookup_empty. Qed.

(** While autosave is off the loop leaves the config alone. *)
Lemma apply_quiet_config keys kwds m :
  _autosave_active m = false →
  parent_c (apply_quiet keys kwds m).1 = parent_c m.
Proof.
  revert kwds m. induction keys as [| key keys IH]; intros kwds m Hoff; simpl.
  - done.
  - destruct (kwds !! key) as [v |]; [| by apply IH].
    rewrite IH.
    + by apply write_quiet_config.
    + destruct (write_quiet_frame key v m) as (_ & _ & _ & -> & _). done.
Qed.

(** With callbacks suppressed and every key a descriptor, the loop of
    [set_setup_attributes] raises nothing and calls nothing back. *)
Lemma loop_quiet setup keys kwds m :
  Forall (λ key, members (__class__ m) !! key = Some MAttribute) keys →
  _callback_active m = false →
  set_attributes_loop setup keys kwds m
  = (Ok (apply_quiet keys kwds m).1, (apply_quiet keys kwds m).2).
Proof.
  revert kwds m. induction keys as [| key keys IH]; intros kwds m Hkeys Hflag.
  - done.
  - inversion Hkeys as [| ? ? Hkey Hrest]; subst. simpl.
    destruct (kwds !! key) as [v |]; [| by apply IH].
    rewrite setattr_descriptor_quiet by done.
    destruct (write_quiet_frame key v m) as (Hcls & _ & Hcb & _).
    apply IH; [by rewrite Hcls | by rewrite Hcb].
Qed.

(** ** The bulk set *)

(** Keyword arguments have string keys: indexing them by an integer raises
    [KeyError]. *)
Lemma kwds_getitem_int kwds z :
  kwds_getitem kwds (VInt z) = Throw (KeyError (VInt z)).
Proof. done. Qed.

(** On a class whose setup attributes are descriptors the bulk set is
    [bulk_set]: no assignment raises, and nothing [setup] could do is
    reached. *)
Lemma set_setup_attributes_quiet setup kwds m :
  descriptors_bound (__class__ m) →
  set_setup_attributes setup kwds m = bulk_set kwds m.
Proof.
  intros Hwf. unfold set_setup_attributes, bulk_set.
  rewrite loop_quiet by done. simpl.
  by case_bool_decide.
Qed.

Lemma bulk_set_state kwds m :
  state_of (bulk_set kwds m)
  = set_callback_active (_callback_active m)
      (apply_quiet (_setup_attributes (__class__ m)) kwds
         (set_callback_active false m)).1.
Proof. unfold bulk_set. simpl. by case_bool_decide. Qed.

Lemma bulk_set_frame kwds m : same_frame m (state_of (bulk_set kwds m)).
Proof.
  rewrite bulk_set_state.
  destruct (apply_quiet_frame (_setup_attributes (__class__ m)) kwds
              (set_callback_active false m)) as (? & ? & ? & ? & ? & ?).
  by repeat split.
Qed.

Lemma bulk_set_values kwds m k :
  values (state_of (bulk_set kwds m)) !! k
  = match kwds !! k with
    | Some v =>
        if bool_decide (k ∈ _setup_attributes (__class__ m)) then Some v
        else values m !! k
    | None => values m !! k
    end.
Proof. rewrite bulk_set_state. simpl. by rewrite apply_quiet_values. Qed.

Lemma bulk_set_trace kwds m :
  ∃ evs, trace (state_of (bulk_set kwds m)) = evs ++ trace m
         ∧ Forall is_write evs.
Proof.
  rewrite bulk_set_state.
  exact (apply_quiet_trace _ kwds (set_callback_active false m)).
Qed.

Lemma bulk_set_config kwds m :
  _autosave_active m = false →
  parent_c (state_of (bulk_set kwds m)) = parent_c m.
Proof.
  intros Hoff. rewrite bulk_set_state.
  change (parent_c (set_callback_active ?b ?x)) with (parent_c x).
  by rewrite apply_quiet_config.
Qed.

(** The bulk set returns exactly when every key given is a setup
    attribute, and raises [KeyError(0)] otherwise. *)
Lemma bulk_set_raised kwds m :
  raised (bulk_set kwds m)
  = if bool_decide (map_Forall (λ k _, k ∈ _setup_attributes (__class__ m)) kwds)
    then None else Some (KeyError (VInt 0)).
Proof.
  unfold bulk_set. simpl.
  set (r := apply_quiet _ _ _).
  assert (Hrest : r.2 = ∅ ↔ map_Forall (λ k _, k ∈ _setup_attributes (__class__ m)) kwds).
  { split.
    - intros Hempty k v Hk.
      pose proof (apply_quiet_rest (_setup_attributes (__class__ m)) kwds
                    (set_callback_active false m) k) as Hr.
      fold r in Hr. rewrite Hempty, lookup_empty, Hk in Hr.
      by case_bool_decide.
    - intros Hall. apply map_eq. intros k. rewrite lookup_empty.
      unfold r. rewrite apply_quiet_rest. case_bool_decide as Hin; [done |].
      destruct (kwds !! k) as [v |] eqn:Hk; [| done].
      exfalso. apply Hin. by apply (Hall k v). }
  case_bool_decide as He; case_bool_decide as Ha; simpl; try done; tauto.
Qed.


(** A bulk set given a key that is no setup attribute raises [KeyError(0)],
    the exception of [kwds[0]], and not the [ValueError] whose message was
    being formatted; the setup attributes given have their values by then. *)
Lemma set_setup_attributes_unknown setup kwds m key v :
  descriptors_bound (__class__ m) →
  kwds !! key = Some v → key ∉ _setup_attributes (__class__ m) →
  raised (set_setup_attributes setup kwds m) = Some (KeyError (VInt 0)) ∧
  ∀ k w, k ∈ _setup_attributes (__class__ m) → kwds !! k = Some w →
         values (state_of (set_setup_attributes setup kwds m)) !! k = Some w.
Proof.
  intros Hwf Hkey Hnot. rewrite set_setup_attributes_quiet by done. split.
  - rewrite bulk_set_raised. case_bool_decide as Hall; [| done].
    by specialize (Hall key v Hkey).
  - intros k w Hk Hw. rewrite bulk_set_values, Hw.
    by rewrite bool_decide_eq_true_2.
Qed.

(** C3: at [set_setup_attributes(x=7, unknown_key=1)] the recognized key
    [x] is applied, and the exception that leaves the call is
    [KeyError(0)], raised by [kwds[0]] inside the [raise ValueError(...)]
    statement. *)
Theorem set_setup_attributes_unknown_key :
  let r := set_setup_attributes (setup 1)
             {[ "x" := VInt 7; "unknown_key" := VInt 1 ]} demo in
  raised r = Some (KeyError (VInt 0)) ∧
  values (state_of r) !! "x" = Some (VInt 7) ∧
  values demo !! "x" = Some (VInt 0).
Proof. by vm_compute. Qed.

(** The flag after the bulk set is the flag before it, whatever the
    assignments did and whether the call returned or raised. *)
Lemma bulk_flag_restored setup kwds m :
  _callback_active (state_of (set_setup_attributes setup kwds m))
  = _callback_active m.
Proof.
  unfold set_setup_attributes.
  destruct (set_attributes_loop _ _ _ _) as [[m' | e m'] rest]; simpl; [| done].
  by case_bool_decide.
Qed.

(** C10: [set_setup_attributes] leaves [_callback_active] as it found it,
    on the normal exit and on the error exit; callbacks that were
    suppressed before the call are suppressed after it. *)
Theorem set_setup_attributes_keeps_flag d kwds m :
  (∀ m', set_setup_attributes (setup d) kwds m = Ok m' →
         _callback_active m' = _callback_active m) ∧
  (∀ e m', set_setup_attributes (setup d) kwds m = Raise e m' →
           _callback_active m' = _callback_active m) ∧
  (_callback_active m = false →
   _callback_active (state_of (set_setup_attributes (setup d) kwds m)) = false).
Proof.
  pose proof (bulk_flag_restored (setup d) kwds m) as Hflag.
  split; [| split].
  - intros m' Hr. by rewrite Hr in Hflag.
  - intros e m' Hr. by rewrite Hr in Hflag.
  - intros Hoff. by rewrite Hflag.
Qed.

(** C10 at work: a bulk set that raises, entered with callbacks
    suppressed. *)
Lemma set_setup_attributes_keeps_flag_witness :
  raised (set_setup_attributes (setup 1) {[ "unknown_key" := VInt 1 ]}
            (set_callback_active false demo))
  = Some (KeyError (VInt 0)) ∧
  _callback_active
    (state_of (set_setup_attributes (setup 1) {[ "unknown_key" := VInt 1 ]}
                 (set_callback_active false demo)))
  = false.
Proof.
  split; [by vm_compute |].
  by apply (set_setup_attributes_keeps_flag 1 {[ "unknown_key" := VInt 1 ]}
              (set_callback_active false demo)).
Defined.

(** ** The generated setup *)

(** After [setup] the flag is set, on both exits. *)
Lemma setup_restores_flag d kwds m :
  _callback_active (state_of (setup (S d) kwds m)) = true.
Proof.
  simpl. unfold setup_body.
  by destruct (bind _ _).
Qed.

Lemma setup_is_quiet d kwds m :
  descriptors_bound (__class__ m) →
  setup (S d) kwds m = setup_quiet kwds m.
Proof.
  intros Hwf. simpl. unfold setup_body, setup_quiet.
  by rewrite set_setup_attributes_quiet.
Qed.

(** The state [setup] leaves: that of the bulk set, with [_setup] logged
    when the bulk set returned, and the flag set. *)
Lemma setup_quiet_state kwds m :
  let s := state_of (bulk_set kwds (set_callback_active false m)) in
  state_of (setup_quiet kwds m) = set_callback_active true s ∨
  state_of (setup_quiet kwds m) = set_callback_active true (log EvSetup s).
Proof.
  unfold setup_quiet.
  destruct (bulk_set kwds (set_callback_active false m)) as [m' | e m']; simpl.
  - right. unfold call_setup_routine. simpl. by destruct (_setup _ _).
  - by left.
Qed.

Lemma setup_quiet_values kwds m k :
  values (state_of (setup_quiet kwds m)) !! k
  = match kwds !! k with
    | Some v =>
        if bool_decide (k ∈ _setup_attributes (__class__ m)) then Some v
        else values m !! k
    | None => values m !! k
    end.
Proof.
  pose proof (bulk_set_values kwds (set_callback_active false m) k) as Hv.
  by destruct (setup_quiet_state kwds m) as [-> | ->].
Qed.

Lemma setup_quiet_frame kwds m :
  same_frame (set_callback_active true m) (state_of (setup_quiet kwds m)).
Proof.
  destruct (bulk_set_frame kwds (set_callback_active false m))
    as (? & ? & ? & ? & ? & ?).
  by destruct (setup_quiet_state kwds m) as [-> | ->]; repeat split.
Qed.

Lemma setup_quiet_trace kwds m :
  ∃ evs, trace (state_of (setup_quiet kwds m)) = evs ++ trace m
         ∧ Forall (λ e, is_write e ∨ e = EvSetup) evs.
Proof.
  destruct (bulk_set_trace kwds (set_callback_active false m))
    as (evs & Hevs & Hw).
  assert (Forall (λ e, is_write e ∨ e = EvSetup) evs)
    by (eapply Forall_impl; [done | by left]).
  destruct (setup_quiet_state kwds m) as [-> | ->]; simpl.
  - by exists evs.
  - exists (EvSetup :: evs). split; [by rewrite Hevs |].
    constructor; [by right | done].
Qed.

Lemma setup_quiet_config kwds m :
  _autosave_active m = false →
  parent_c (state_of (setup_quiet kwds m)) = parent_c m.
Proof.
  intros Hoff.
  pose proof (bulk_set_config kwds (set_callback_active false m) Hoff).
  by destruct (setup_quiet_state kwds m) as [-> | ->].
Qed.

(** C1: during [setup] no callback runs, so that no nested [setup] is
    entered (the call does not depend on the depth left for one), and after
    it, returned or raised, [_callback_active] is [True]. *)
Theorem setup_suppresses_callbacks d kwds m :
  descriptors_bound (__class__ m) →
  setup (S d) kwds m = setup 1 kwds m ∧
  _callback_active (state_of (setup (S d) kwds m)) = true ∧
  ∃ evs, trace (state_of (setup (S d) kwds m)) = evs ++ trace m
         ∧ EvCallback ∉ evs.
Proof.
  intros Hwf. split; [| split].
  - by rewrite !setup_is_quiet.
  - apply setup_restores_flag.
  - rewrite setup_is_quiet by done.
    destruct (setup_quiet_trace kwds m) as (evs & Hevs & Hall).
    exists evs. split; [done |].
    intros Hin. rewrite Forall_forall in Hall.
    by destruct (Hall _ Hin).
Qed.

Lemma demo_strict_bound : descriptors_bound (__class__ demo_strict).
Proof. repeat (constructor; [by vm_compute |]). constructor. Defined.

Lemma demo_bound : descriptors_bound (__class__ demo).
Proof. repeat (constructor; [by vm_compute |]). constructor. Defined.

Lemma demo_stale_bound : descriptors_bound (__class__ demo_stale).
Proof. repeat (constructor; [by vm_compute |]). constructor. Defined.

(** C1 at work: every callback attribute is given, [_setup] raises, and the
    flag is set again when the exception leaves [setup]. *)
Lemma setup_suppresses_callbacks_witness :
  descriptors_bound (__class__ demo_strict) ∧
  raised (setup 2 {[ "x" := VInt 1; "y" := VInt (-2) ]} demo_strict)
  = Some (SetupError "y < 0") ∧
  (setup 2 {[ "x" := VInt 1; "y" := VInt (-2) ]} demo_strict
   = setup 1 {[ "x" := VInt 1; "y" := VInt (-2) ]} demo_strict ∧
   _callback_active
     (state_of (setup 2 {[ "x" := VInt 1; "y" := VInt (-2) ]} demo_strict))
   = true ∧
   ∃ evs,
     trace (state_of (setup 2 {[ "x" := VInt 1; "y" := VInt (-2) ]} demo_strict))
     = evs ++ trace demo_strict ∧ EvCallback ∉ evs).
Proof.
  split; [exact demo_strict_bound |]. split; [by vm_compute |].
  exact (setup_suppresses_callbacks 1 _ demo_strict demo_strict_bound).
Defined.

(** ** Ownership *)

(** Taking ownership returns, with the owner recorded and autosave off. *)
Lemma acquire_returns d val m :
  val ≠ VNone →
  set_owner_to d val m
  = Ok (log EvChangeOwnership
          (ownership_changed (_owner m) val
             (set_autosave_active false (set_owner val m)))).
Proof. intros Hval. by destruct val. Qed.

Lemma release_unfold d m :
  descriptors_bound (__class__ m) →
  c_dict m !! "self" = None →
  free (S d) m
  = bind (setup_quiet (c_dict m) (released m))
      (λ m, Ok (log EvChangeOwnership m)).
Proof.
  intros Hwf Hself. unfold free, set_owner_to, owner_setter, call_setup_with.
  cbn [c fst snd].
  change (c_dict (ownership_changed (_owner m) VNone
                    (set_autosave_active true (set_owner VNone m))))
    with (c_dict m).
  rewrite Hself. by rewrite setup_is_quiet.
Qed.

(** A config that holds a key [self] stops the release at the call of
    [setup]: nothing is applied. *)
Lemma release_blocked d m v :
  c_dict m !! "self" = Some v →
  free d m
  = Raise (TypeError "setup() got multiple values for keyword argument 'self'")
      (released m).
Proof.
  intros Hself. unfold free, set_owner_to, owner_setter, call_setup_with.
  cbn [c fst snd].
  change (c_dict (ownership_changed (_owner m) VNone
                    (set_autosave_active true (set_owner VNone m))))
    with (c_dict m).
  by rewrite Hself.
Qed.

(** After a release, returned or raised, the state is that of the re-setup,
    up to the event logged on return. *)
Lemma release_state d m :
  descriptors_bound (__class__ m) →
  c_dict m !! "self" = None →
  let s := state_of (setup_quiet (c_dict m) (released m)) in
  state_of (free (S d) m) = s ∨
  state_of (free (S d) m) = log EvChangeOwnership s.
Proof.
  intros Hwf Hself. rewrite release_unfold by done.
  destruct (setup_quiet _ _); simpl; [by right | by left].
Qed.

Lemma release_values d m k :
  descriptors_bound (__class__ m) →
  c_dict m !! "self" = None →
  values (state_of (free (S d) m)) !! k
  = match c_dict m !! k with
    | Some v =>
        if bool_decide (k ∈ _setup_attributes (__class__ m)) then Some v
        else values m !! k
    | None => values m !! k
    end.
Proof.
  intros Hwf Hself.
  pose proof (setup_quiet_values (c_dict m) (released m) k) as Hv.
  by destruct (release_state d m Hwf Hself) as [-> | ->].
Qed.

Lemma release_frame d m :
  descriptors_bound (__class__ m) →
  c_dict m !! "self" = None →
  same_frame
    (set_callback_active true (set_autosave_active true (set_owner VNone m)))
    (state_of (free (S d) m)).
Proof.
  intros Hwf Hself.
  destruct (setup_quiet_frame (c_dict m) (released m))
    as (? & ? & ? & ? & ? & ?).
  by destruct (release_state d m Hwf Hself) as [-> | ->]; repeat split.
Qed.

(** On every exit of a release the module is free, with autosave on. *)
Lemma release_owner d m :
  descriptors_bound (__class__ m) →
  __class__ (state_of (free (S d) m)) = __class__ m ∧
  _autosave_active (state_of (free (S d) m)) = true ∧
  _owner (state_of (free (S d) m)) = VNone.
Proof.
  intros Hwf. destruct (c_dict m !! "self") as [v |] eqn:Hself.
  - by rewrite (release_blocked (S d) m v Hself).
  - by destruct (release_frame d m Hwf Hself) as (? & _ & _ & ? & ? & _).
Qed.

Lemma bound_member m key :
  descriptors_bound (__class__ m) →
  key ∈ _setup_attributes (__class__ m) →
  members (__class__ m) !! key = Some MAttribute.
Proof.
  unfold descriptors_bound. rewrite Forall_forall. auto.
Qed.

(** A write to a descriptor while the module is owned: the value is held,
    the config is as before. *)
Lemma owned_write d x v m :
  descriptors_bound (__class__ m) →
  x ∈ _setup_attributes (__class__ m) →
  _autosave_active m = false →
  let m' := state_of (setattr d x v m) in
  values m' !! x = Some v ∧ parent_c m' = parent_c m ∧ name m' = name m
  ∧ __class__ m' = __class__ m.
Proof.
  intros Hwf Hx Hoff. unfold setattr.
  rewrite setattr_descriptor by by apply bound_member.
  set (s := write_quiet x v m).
  assert (Hs : values s !! x = Some v)
    by (unfold s; rewrite write_quiet_values; apply lookup_insert_eq).
  assert (Hc : parent_c s = parent_c m) by by apply write_quiet_config.
  destruct (write_quiet_frame x v m) as (Hcls & Hn & _ & Ha & _). fold s in Hcls, Hn, Ha.
  destruct (_ && _); [| done].
  unfold _callback. destruct d as [| d]; [done |].
  rewrite setup_is_quiet by (simpl; by rewrite Hcls).
  rewrite setup_quiet_values, lookup_empty.
  rewrite setup_quiet_config by (simpl; congruence).
  destruct (setup_quiet_frame ∅ (log EvCallback s)) as (-> & -> & _).
  done.
Qed.

(** *** The config under a release *)

(** The branch of an instance that the section already holds. *)
Lemma c_dict_present m sec br :
  parent_c m = Some sec → instances sec !! name m = Some br → c_dict m = br.
Proof.
  intros Hc Hbr. unfold c_dict, section_of. rewrite Hc. simpl.
  by rewrite Hbr, Hbr.
Qed.

Lemma c_dict_setitem key v m : c_dict (c_setitem key v m) = <[key := v]> (c_dict m).
Proof.
  eapply c_dict_present; [reflexivity |]. simpl. apply lookup_insert_eq.
Qed.

Lemma c_dict_c m : c_dict (c m).1 = c_dict m.
Proof.
  eapply c_dict_present; [reflexivity |]. simpl.
  unfold c_dict, section_of.
  destruct (instances (default empty_section (parent_c m)) !! name m) eqn:Hi.
  - by rewrite Hi.
  - simpl. by rewrite !lookup_insert_eq.
Qed.

(** What decides [c_dict]. *)
Lemma c_dict_ext m m' :
  parent_c m' = parent_c m → name m' = name m → c_dict m' = c_dict m.
Proof. intros Hc Hn. unfold c_dict, section_of. by rewrite Hc, Hn. Qed.

Lemma write_quiet_c_dict key v m :
  c_dict (write_quiet key v m)
  = if _autosave_active m && bool_decide (key ∈ _setup_attributes (__class__ m))
    then <[key := v]> (c_dict m) else c_dict m.
Proof.
  unfold write_quiet. simpl. destruct (_ && _); [| done].
  change (c_dict (log ?e ?x)) with (c_dict x). by rewrite c_dict_setitem.
Qed.

(** Writing the content of the config back to the module, with autosave
    on, leaves the content as it is. *)
Lemma apply_quiet_c_dict keys kwds m :
  (∀ k v, kwds !! k = Some v → c_dict m !! k = Some v) →
  c_dict (apply_quiet keys kwds m).1 = c_dict m.
Proof.
  revert kwds m. induction keys as [| key keys IH]; intros kwds m Hsub; simpl.
  - done.
  - destruct (kwds !! key) as [v |] eqn:Hkey; [| by apply IH].
    assert (Hw : c_dict (write_quiet key v m) = c_dict m).
    { rewrite write_quiet_c_dict. destruct (_ && _); [| done].
      apply insert_id. by apply Hsub. }
    rewrite IH; [done |].
    intros k w Hk. rewrite Hw. apply Hsub.
    destruct (decide (k = key)) as [-> | Hne].
    + by rewrite lookup_delete_eq in Hk.
    + by rewrite lookup_delete_ne in Hk.
Qed.

Lemma released_c_dict b m : c_dict (set_callback_active b (released m)) = c_dict m.
Proof.
  transitivity (c_dict (released m)); [by apply c_dict_ext |].
  unfold released. rewrite c_dict_c. by apply c_dict_ext.
Qed.

(** A release leaves the saved values as they are. *)
Lemma release_c_dict d m :
  descriptors_bound (__class__ m) →
  c_dict m !! "self" = None →
  c_dict (state_of (free (S d) m)) = c_dict m.
Proof.
  intros Hwf Hself.
  assert (Hb : c_dict (state_of (bulk_set (c_dict m)
                                   (set_callback_active false (released m))))
               = c_dict m).
  { rewrite bulk_set_state. set (r := apply_quiet _ _ _).
    transitivity (c_dict r.1); [by apply c_dict_ext |].
    assert (Hm0 : c_dict (set_callback_active false
                            (set_callback_active false (released m)))
                  = c_dict m).
    { transitivity (c_dict (set_callback_active false (released m)));
        [by apply c_dict_ext | apply released_c_dict]. }
    unfold r. rewrite apply_quiet_c_dict; [done |].
    intros k v Hk. by rewrite Hm0. }
  assert (Hs : c_dict (state_of (setup_quiet (c_dict m) (released m))) = c_dict m).
  { etransitivity; [| exact Hb].
    by destruct (setup_quiet_state (c_dict m) (released m)) as [-> | ->];
      apply c_dict_ext. }
  etransitivity; [| exact Hs].
  by destruct (release_state d m Hwf Hself) as [-> | ->]; apply c_dict_ext.
Qed.

(** C4 (amended): with [saved] in the config for the setup attribute [x],
    and no key [self] in the config, taking ownership, writing [tmp] to [x]
    and releasing leaves [x] at [saved]: the write under ownership is held
    by the attribute but never reaches the config, and the release sets the
    module up from the config. *)
Theorem release_restores_persisted d1 d2 d3 m x tok saved tmp :
  descriptors_bound (__class__ m) →
  x ∈ _setup_attributes (__class__ m) →
  c_dict m !! x = Some saved →
  c_dict m !! "self" = None →
  tok ≠ VNone →
  let m1 := state_of (set_owner_to d1 tok m) in
  let m2 := state_of (setattr d2 x tmp m1) in
  let m3 := state_of (free (S d3) m2) in
  _owner m1 = tok ∧ _autosave_active m1 = false ∧
  values m2 !! x = Some tmp ∧ c_dict m2 = c_dict m ∧
  values m3 !! x = Some saved ∧ c_dict m3 = c_dict m ∧
  _owner m3 = VNone ∧ _autosave_active m3 = true.
Proof.
  intros Hwf Hx Hsaved Hself Htok. rewrite acquire_returns by done.
  cbn [state_of]. cbv zeta.
  set (m1 := log EvChangeOwnership _).
  assert (Hwf1 : descriptors_bound (__class__ m1)) by done.
  destruct (owned_write d2 x tmp m1 Hwf1 Hx eq_refl) as (Hv & Hc & Hn & Hcls).
  set (m2 := state_of (setattr d2 x tmp m1)) in *.
  assert (Hdict : c_dict m2 = c_dict m) by by apply c_dict_ext.
  assert (Hwf2 : descriptors_bound (__class__ m2)) by (by rewrite Hcls).
  assert (Hself2 : c_dict m2 !! "self" = None) by (by rewrite Hdict).
  destruct (release_frame d3 m2 Hwf2 Hself2) as (_ & _ & _ & Hauto & Hown & _).
  repeat split; try done.
  - rewrite release_values by done. rewrite Hdict, Hsaved, Hcls.
    by rewrite bool_decide_eq_true_2.
  - by rewrite release_c_dict.
Qed.

Lemma release_restores_persisted_witness :
  c_dict demo !! "x" = Some (VInt 5) ∧
  let m1 := state_of (set_owner_to 1 (VStr "na") demo) in
  let m2 := state_of (setattr 1 "x" (VInt 99) m1) in
  let m3 := state_of (free 1 m2) in
  _owner m1 = VStr "na" ∧ _autosave_active m1 = false ∧
  values m2 !! "x" = Some (VInt 99) ∧ c_dict m2 = c_dict demo ∧
  values m3 !! "x" = Some (VInt 5) ∧ c_dict m3 = c_dict demo ∧
  _owner m3 = VNone ∧ _autosave_active m3 = true.
Proof.
  split; [by vm_compute |].
  apply (release_restores_persisted 1 1 0 demo "x" (VStr "na") (VInt 5) (VInt 99)).
  - exact demo_bound.
  - apply list_elem_of_here.
  - by vm_compute.
  - by vm_compute.
  - done.
Defined.

(** C4, as stated, fails when the config holds a key [self] beside [x]: the
    release passes the whole config to [setup] as keywords, the key collides
    with the parameter [self], and [TypeError] is raised before anything is
    applied: [x] is persisted as 5 and holds 99 after the release. *)
Lemma release_with_self_key_restores_nothing :
  "x" ∈ _setup_attributes (__class__ demo_self) ∧
  c_dict demo_self !! "x" = Some (VInt 5) ∧
  let m1 := state_of (set_owner_to 1 (VStr "na") demo_self) in
  let m2 := state_of (setattr 1 "x" (VInt 99) m1) in
  raised (free 1 m2)
  = Some (TypeError "setup() got multiple values for keyword argument 'self'") ∧
  _owner (state_of (free 1 m2)) = VNone ∧
  values (state_of (free 1 m2)) !! "x" = Some (VInt 99) ∧
  values (state_of (free 1 m2)) !! "x" ≠ Some (VInt 5).
Proof. split; [apply list_elem_of_here | by vm_compute]. Qed.

(** [self.owner = val] passes the guard, the class defining [owner], and
    runs the setter of the property. *)
Lemma assign_owner d val m :
  members (__class__ m) !! "owner" = Some MOwnerProperty →
  setattr d "owner" val m = set_owner_to d val m.
Proof. intros Hmem. unfold setattr. by pass_guard Hmem. Qed.

(** A release needs no more depth than the one call of [setup] it makes. *)
Lemma release_depth d m :
  descriptors_bound (__class__ m) → free (S d) m = free 1 m.
Proof.
  intros Hwf. destruct (c_dict m !! "self") as [v |] eqn:Hself.
  - by rewrite !(release_blocked _ m v Hself).
  - by rewrite !release_unfold.
Qed.

(** C7: taking ownership returns, with the owner recorded; after a release
    the owner is [None] whether the re-setup returned or raised. *)
Theorem release_failure_keeps_owner_none d val m :
  (val ≠ VNone → ∃ m', set_owner_to d val m = Ok m' ∧ _owner m' = val) ∧
  (descriptors_bound (__class__ m) →
   _owner (state_of (free (S d) m)) = VNone ∧
   ∀ e m', free (S d) m = Raise e m' → _owner m' = VNone).
Proof.
  split.
  - intros Hval. rewrite acquire_returns by done. eauto.
  - intros Hwf.
    destruct (release_owner d m Hwf) as (_ & _ & Hown).
    split; [done |]. intros e m' Hfree. by rewrite Hfree in Hown.
Qed.

(** C7 at work: the config of [demo_stale] carries a key that is no setup
    attribute, so the re-setup of the release raises; the owner is [None]
    all the same. *)
Lemma release_failure_keeps_owner_none_witness :
  let owned := state_of (set_owner_to 1 (VStr "na") demo_stale) in
  _owner owned = VStr "na" ∧
  raised (free 1 owned) = Some (KeyError (VInt 0)) ∧
  _owner (state_of (free 1 owned)) = VNone.
Proof.
  cbv zeta. split; [by vm_compute |]. split; [by vm_compute |].
  apply (release_failure_keeps_owner_none 0 VNone
           (state_of (set_owner_to 1 (VStr "na") demo_stale))).
  repeat (constructor; [by vm_compute |]). constructor.
Defined.

(** ** Ownership and autosave *)

Lemma init_coupled cls pc nm vals :
  owner_autosave_coupled (__init__ cls pc nm vals).
Proof. done. Qed.

(** An assignment to a descriptor of the class changes the attribute
    values, the config and the trace, and nothing else. *)
Lemma descriptor_write_frame d key v m :
  descriptors_bound (__class__ m) →
  members (__class__ m) !! key = Some MAttribute →
  same_frame m (state_of (setattr d key v m)).
Proof.
  intros Hwf Hmem. unfold setattr. rewrite setattr_descriptor by done.
  pose proof (write_quiet_frame key v m) as Hframe.
  set (s := write_quiet key v m) in *.
  destruct (_callback_active m) eqn:Hcb; cbn [andb]; [| done].
  case_bool_decide; [| done].
  unfold _callback. destruct d as [| d]; [done |].
  destruct Hframe as (Hcls & Hn & Hf & Ha & Ho & Hd).
  rewrite setup_is_quiet by (simpl; by rewrite Hcls).
  destruct (setup_quiet_frame ∅ (log EvCallback s)) as (? & ? & ? & ? & ? & ?).
  repeat split; simpl in *; congruence.
Qed.

(** The one nested [setup] that the callback of a write makes needs depth
    one, and no more. *)
Lemma write_depth d key v m :
  descriptors_bound (__class__ m) →
  members (__class__ m) !! key = Some MAttribute →
  setattr (S d) key v m = setattr 1 key v m.
Proof.
  intros Hwf Hmem. unfold setattr. rewrite !setattr_descriptor by done.
  destruct (_ && _); [| done]. unfold _callback.
  destruct (write_quiet_frame key v m) as (Hcls & _).
  by rewrite !setup_is_quiet by (simpl; by rewrite Hcls).
Qed.

Lemma write_keeps_coupled d key v m :
  descriptors_bound (__class__ m) →
  members (__class__ m) !! key = Some MAttribute →
  owner_autosave_coupled m →
  owner_autosave_coupled (state_of (setattr d key v m)).
Proof.
  intros Hwf Hmem Hinv.
  destruct (descriptor_write_frame d key v m Hwf Hmem) as (_ & _ & _ & Ha & Ho & _).
  unfold owner_autosave_coupled. by rewrite Ha, Ho.
Qed.

Lemma setup_keeps_coupled d kwds m :
  descriptors_bound (__class__ m) →
  owner_autosave_coupled m →
  owner_autosave_coupled (state_of (setup (S d) kwds m)).
Proof.
  intros Hwf Hinv. rewrite setup_is_quiet by done.
  destruct (setup_quiet_frame kwds m) as (_ & _ & _ & Ha & Ho & _).
  unfold owner_autosave_coupled. by rewrite Ha, Ho.
Qed.

Lemma owner_change_coupled d val m :
  descriptors_bound (__class__ m) →
  owner_autosave_coupled (state_of (set_owner_to (S d) val m)).
Proof.
  intros Hwf. destruct (decide (val = VNone)) as [-> | Hval].
  - destruct (release_owner d m Hwf) as (_ & Ha & Ho).
    unfold owner_autosave_coupled. fold (free (S d) m). by rewrite Ha, Ho.
  - rewrite acquire_returns by done. by destruct val.
Qed.

(** C5: on an owned module [create_widget] returns with autosave active,
    although the owner is still set: the [finally] clause sets the flag to
    [True] instead of putting back what it was. *)
Theorem create_widget_reactivates_autosave :
  let owned := state_of (set_owner_to 1 (VStr "na") demo) in
  let m := state_of (create_widget 1 owned) in
  owner_autosave_coupled demo ∧ owner_autosave_coupled owned ∧
  raised (create_widget 1 owned) = None ∧
  _owner m = VStr "na" ∧ _autosave_active m = true ∧
  ¬ owner_autosave_coupled m.
Proof. by vm_compute. Qed.

(** ** Named states *)

(** C6: [load_state] of a name that the states branch does not hold raises
    [KeyError] with the message of line 277, before any call of [setup]:
    the attribute values and the trace are as before. *)
Theorem load_state_missing d state state_branch m :
  match state_branch with
  | Some b => b
  | None => (c_states m).2
  end !! state = None →
  ∃ m',
    load_state d state state_branch m
    = Raise (KeyError (VStr ("State " +:+ state
                             +:+ " doesn't exist for modules "
                             +:+ str (cls_name (__class__ m))))) m' ∧
    values m' = values m ∧ trace m' = trace m ∧ same_frame m m'.
Proof.
  intros Hmiss. unfold load_state.
  destruct state_branch as [b |]; cbn [c_states fst snd] in *; rewrite Hmiss;
    eexists; (split; [reflexivity |]); by repeat split.
Qed.

Lemma load_state_missing_witness :
  (c_states demo).2 !! "nonexistent" = None ∧
  ∃ m',
    load_state 1 "nonexistent" None demo
    = Raise (KeyError (VStr "State nonexistent doesn't exist for modules None")) m' ∧
    values m' = values demo ∧ trace m' = trace demo ∧ same_frame demo m'.
Proof.
  split; [by vm_compute |].
  apply (load_state_missing 1 "nonexistent" None demo). by vm_compute.
Defined.

(** A name that the branch holds is handed to [setup]. *)
Lemma load_state_present d state stored m :
  (c_states m).2 !! state = Some stored →
  load_state d state None m = setup d stored (c_states m).1.
Proof. intros H. unfold load_state. cbn [c_states fst snd] in *. by rewrite H. Qed.

(** ** Loading the setup attributes from the config *)

(** The values the loop stores, by key. *)
Lemma apply_quiet_events keys kwds m :
  ∃ evs, trace (apply_quiet keys kwds m).1 = evs ++ trace m
         ∧ Forall is_write evs
         ∧ ∀ k w, EvSet k w ∈ evs ↔ k ∈ keys ∧ kwds !! k = Some w.
Proof.
  revert kwds m. induction keys as [| key keys IH]; intros kwds m; simpl.
  - exists []. split; [done |]. split; [done |].
    intros k w. split; [by intros ?%elem_of_nil | by intros [?%elem_of_nil _]].
  - destruct (kwds !! key) as [v |] eqn:Hkey.
    + destruct (IH (delete key kwds) (write_quiet key v m))
        as (evs & -> & Hevs & Hsets).
      assert (Hw : ∃ evs', trace (write_quiet key v m) = evs' ++ trace m
                ∧ Forall is_write evs'
                ∧ ∀ k w, EvSet k w ∈ evs' ↔ k = key ∧ w = v).
      { unfold write_quiet; simpl. destruct (_ && _); simpl.
        - exists [EvSave key v; EvSet key v]. split; [done |].
          split; [by repeat constructor |]. intros k w.
          rewrite !elem_of_cons, elem_of_nil. intuition congruence.
        - exists [EvSet key v]. split; [done |].
          split; [by repeat constructor |]. intros k w.
          rewrite !elem_of_cons, elem_of_nil. intuition congruence. }
      destruct Hw as (evs' & -> & Hevs' & Hsets').
      exists (evs ++ evs'). split; [by rewrite app_assoc |].
      split; [by apply Forall_app |].
      intros k w. rewrite elem_of_app, Hsets, Hsets', elem_of_cons.
      destruct (decide (k = key)) as [-> | Hne].
      * rewrite lookup_delete_eq, Hkey. intuition congruence.
      * rewrite lookup_delete_ne by done. intuition congruence.
    + destruct (IH kwds m) as (evs & -> & Hevs & Hsets).
      exists evs. split; [done |]. split; [done |].
      intros k w. rewrite Hsets, elem_of_cons.
      destruct (decide (k = key)) as [-> | Hne]; [rewrite Hkey |]; intuition congruence.
Qed.

(** C8: [load_setup_attributes] returns; afterwards a key holds the value
    of the config exactly when the config has it and it is a setup
    attribute, every other key holds what it held; the values were stored
    by suppressed writes, so neither the callback nor [_setup] ran. *)
Theorem load_setup_attributes_applies_recognized d m :
  descriptors_bound (__class__ m) →
  ∃ m' evs,
    load_setup_attributes d m = Ok m' ∧
    (∀ k, values m' !! k
          = match c_dict m !! k with
            | Some v =>
                if bool_decide (k ∈ _setup_attributes (__class__ m))
                then Some v else values m !! k
            | None => values m !! k
            end) ∧
    trace m' = evs ++ trace m ∧
    (∀ k v, EvSet k v ∈ evs
            ↔ k ∈ _setup_attributes (__class__ m) ∧ c_dict m !! k = Some v) ∧
    (EvCallback ∉ evs) ∧ (EvSetup ∉ evs) ∧
    _callback_active m' = _callback_active m.
Proof.
  intros Hwf. unfold load_setup_attributes. cbn [c fst snd].
  set (m0 := set_parent_c (Some (section_of m)) m).
  set (dic := filter _ (c_dict m)).
  assert (Hdic : ∀ k, dic !! k
            = match c_dict m !! k with
              | Some v =>
                  if bool_decide (k ∈ _setup_attributes (__class__ m))
                  then Some v else None
              | None => None
              end).
  { intros k. unfold dic. destruct (c_dict m !! k) as [v |] eqn:Hk.
    - case_bool_decide as Hin.
      + by apply map_lookup_filter_Some.
      + apply map_lookup_filter_None. right. intros v' Hv' Hp. by apply Hin.
    - apply map_lookup_filter_None. by left. }
  rewrite set_setup_attributes_quiet by done.
  unfold bulk_set. cbn [__class__ m0 set_parent_c _callback_active set_callback_active].
  set (r := apply_quiet _ _ _).
  assert (Hrest : r.2 = ∅).
  { apply map_eq. intros k. unfold r. rewrite apply_quiet_rest, lookup_empty.
    case_bool_decide as Hin; [done |]. rewrite Hdic.
    destruct (c_dict m !! k); [| done]. by case_bool_decide. }
  rewrite bool_decide_eq_true_2 by done.
  destruct (apply_quiet_events (_setup_attributes (__class__ m)) dic
              (set_callback_active false m0)) as (evs & Htr & Hw & Hsets).
  fold r in Htr.
  exists (set_callback_active (_callback_active m) r.1), evs.
  split; [done |]. split; [| split; [exact Htr | split; [| split; [| split]]]].
  - intros k. cbn [values set_callback_active]. unfold r.
    rewrite apply_quiet_values, Hdic. cbn [values set_callback_active m0 set_parent_c].
    destruct (c_dict m !! k); [| done]. by case_bool_decide.
  - intros k v. rewrite Hsets, Hdic. destruct (c_dict m !! k) as [v' |].
    + case_bool_decide; intuition congruence.
    + intuition congruence.
  - intros Hin. rewrite Forall_forall in Hw. exact (Hw _ Hin).
  - intros Hin. rewrite Forall_forall in Hw. exact (Hw _ Hin).
  - done.
Qed.

(** C8 at work: the config of [demo_stale] holds [x] and a key [gain] that
    is no setup attribute; loading returns and [x] has the saved value. *)
Lemma load_setup_attributes_applies_recognized_witness :
  c_dict demo_stale !! "gain" = Some (VInt 3) ∧
  raised (load_setup_attributes 1 demo_stale) = None ∧
  values (state_of (load_setup_attributes 1 demo_stale)) !! "x" = Some (VInt 5) ∧
  values (state_of (load_setup_attributes 1 demo_stale)) !! "gain" = None.
Proof.
  split; [by vm_compute |].
  destruct (load_setup_attributes_applies_recognized 1 demo_stale demo_stale_bound)
    as (m' & evs & -> & Hv & _).
  split; [done |]. cbn [state_of]. rewrite !Hv. by vm_compute.
Defined.

(** ** The guard on assignment *)

(** C9 (amended): a name that does not start with an underscore, is not in
    the instance dictionary and is not defined on the class is refused with
    [ValueError], the instance unchanged; any other name passes the guard
    and is assigned by [object.__setattr__], which stores it in the instance
    when the class binds the name to no data descriptor and raises
    [AttributeError] when the class binds it to a property without setter. *)
Theorem setattr_guard d key v m :
  (startswith key "_" = false → key ∉ dom (__dict__ m) →
   members (__class__ m) !! key = None →
   setattr d key v m
   = Raise (ValueError ("New module attributes may not be set at runtime."
                        +:+ " Attribute " +:+ key
                        +:+ " is not defined in class "
                        +:+ __name__ (__class__ m))) m) ∧
  (startswith key "_" = true ∨ key ∈ dom (__dict__ m)
   ∨ is_Some (members (__class__ m) !! key) →
   setattr d key v m = object_setattr (setup d) key v m ∧
   (members (__class__ m) !! key = None
    ∨ members (__class__ m) !! key = Some MPlain →
    setattr d key v m = Ok (instance_store key v m)) ∧
   (members (__class__ m) !! key = Some MReadOnlyProperty →
    setattr d key v m = Raise (AttributeError "can't set attribute") m)).
Proof.
  unfold setattr, __setattr__. split.
  - intros Hpre Hdict Hmem. rewrite Hpre, Hmem.
    rewrite bool_decide_eq_false_2 by done.
    rewrite bool_decide_eq_false_2 by (by intros [? ?]).
    done.
  - intros Hpass.
    assert (Hguard : startswith key "_"
                     || bool_decide (key ∈ dom (__dict__ m))
                     || bool_decide (is_Some (members (__class__ m) !! key))
                     = true).
    { destruct Hpass as [-> | [Hd | Hm]]; [done | |].
      - rewrite (bool_decide_eq_true_2 _ Hd). by rewrite orb_true_r.
      - rewrite (bool_decide_eq_true_2 _ Hm). by rewrite orb_true_r. }
    rewrite Hguard. split; [done |]. unfold object_setattr. split.
    + by intros [-> | ->].
    + by intros ->.
Qed.

Lemma setattr_guard_witness :
  setattr 1 "gain" (VInt 3) demo
  = Raise (ValueError "New module attributes may not be set at runtime. Attribute gain is not defined in class Demo") demo ∧
  setattr 1 "_scratch" (VInt 3) demo
  = Ok (instance_store "_scratch" (VInt 3) demo) ∧
  setattr 1 "parent" VNone demo = Ok (instance_store "parent" VNone demo).
Proof.
  destruct (setattr_guard 1 "gain" (VInt 3) demo) as [Hrefuse _].
  destruct (setattr_guard 1 "_scratch" (VInt 3) demo) as [_ Hprivate].
  destruct (setattr_guard 1 "parent" VNone demo) as [_ Hclass].
  split; [| split].
  - by apply Hrefuse; vm_compute.
  - apply Hprivate; [by left | by left; vm_compute].
  - apply Hclass; [right; right; exists MPlain; by vm_compute | by right; vm_compute].
Defined.

(** C9, as stated, fails for a name the class binds to a property without
    setter: [c] is defined on the class (lines 344-358), so the guard lets
    the assignment through, and [object.__setattr__] raises
    [AttributeError]. *)
Lemma setattr_read_only_property_fails :
  is_Some (members (__class__ demo) !! "c") ∧
  setattr 1 "c" (VInt 1) demo
  = Raise (AttributeError "can't set attribute") demo ∧
  ¬ ∃ m', setattr 1 "c" (VInt 1) demo = Ok m'.
Proof.
  split; [exists MReadOnlyProperty; by vm_compute |].
  assert (H : setattr 1 "c" (VInt 1) demo
              = Raise (AttributeError "can't set attribute") demo)
    by (by vm_compute).
  split; [done |]. intros [m' Hm']. by rewrite H in Hm'.
Qed.

(** * Further properties of the code *)

(** ** The codec on arbitrary integers *)

Lemma from_pyint_mod (v w : Z) :
  0 ≤ w ≤ 32 → _from_pyint v w = Return (v `mod` 2 ^ w).
Proof.
  intros Hw. rewrite from_pyint_word by done. f_equal.
  destruct (Z.ltb_spec v 0); [| done].
  rewrite <- (Z_mod_plus_full v 1 (2 ^ w)). f_equal. lia.
Qed.

Lemma to_pyint_any (v w : Z) :
  1 ≤ w →
  _to_pyint v w
  = Return (if v `mod` 2 ^ w <? 2 ^ (w - 1) then v `mod` 2 ^ w
            else v `mod` 2 ^ w - 2 ^ w).
Proof.
  intros Hw.
  assert (0 < 2 ^ w) by (apply Z.pow_pos_nonneg; lia).
  pose proof (Z.mod_pos_bound v (2 ^ w) ltac:(lia)) as Hb.
  rewrite <- (to_pyint_small (v `mod` 2 ^ w) w) by lia.
  unfold _to_pyint. rewrite !land_mask by lia. by rewrite Z.mod_mod by lia.
Qed.

(** X1: for a width up to 32 the encoding of any integer is its residue
    modulo [2 ^ w]: a word of [w] bits, the same for two values that differ
    by a multiple of [2 ^ w]. *)
Theorem encoding_is_residue (v w k : Z) :
  0 ≤ w ≤ 32 →
  _from_pyint v w = Return (v `mod` 2 ^ w) ∧
  0 ≤ v `mod` 2 ^ w < 2 ^ w ∧
  _from_pyint (v + k * 2 ^ w) w = _from_pyint v w.
Proof.
  intros Hw. assert (0 < 2 ^ w) by (apply Z.pow_pos_nonneg; lia).
  split; [by apply from_pyint_mod |]. split; [by apply Z.mod_pos_bound |].
  rewrite !from_pyint_mod by done. by rewrite Z_mod_plus_full.
Qed.

Lemma encoding_is_residue_witness :
  _from_pyint (2 ^ 14 + 5) 14 = Return 5 ∧
  _from_pyint (-1 + 3 * 2 ^ 14) 14 = _from_pyint (-1) 14.
Proof.
  split.
  - by destruct (encoding_is_residue (2 ^ 14 + 5) 14 0 ltac:(lia)) as (-> & _).
  - by destruct (encoding_is_residue (-1) 14 3 ltac:(lia)) as (_ & _ & ->).
Defined.

(** X2: for a width of at least 1 the decoding of any integer, negative or
    beyond the width, is the one value of the signed range that is congruent
    to it modulo [2 ^ w]. *)
Theorem decoding_is_signed_residue (v w : Z) :
  1 ≤ w →
  ∃ r, _to_pyint v w = Return r ∧
       - 2 ^ (w - 1) ≤ r < 2 ^ (w - 1) ∧
       r `mod` 2 ^ w = v `mod` 2 ^ w.
Proof.
  intros Hw. rewrite to_pyint_any by done. eexists. split; [reflexivity |].
  assert (0 < 2 ^ (w - 1)) by (apply Z.pow_pos_nonneg; lia).
  pose proof (pow2_split w Hw) as Hsplit.
  pose proof (Z.mod_pos_bound v (2 ^ w) ltac:(lia)) as Hb.
  destruct (Z.ltb_spec (v `mod` 2 ^ w) (2 ^ (w - 1))).
  - split; [lia |]. by rewrite Z.mod_mod by lia.
  - split; [lia |].
    rewrite <- (Z_mod_plus_full (v `mod` 2 ^ w - 2 ^ w) 1 (2 ^ w)).
    replace (v `mod` 2 ^ w - 2 ^ w + 1 * 2 ^ w) with (v `mod` 2 ^ w) by lia.
    by rewrite Z.mod_mod by lia.
Qed.

Lemma decoding_is_signed_residue_witness :
  ∃ r, _to_pyint (-3) 14 = Return r ∧
       - 2 ^ (14 - 1) ≤ r < 2 ^ (14 - 1) ∧
       r `mod` 2 ^ 14 = (-3) `mod` 2 ^ 14.
Proof. apply (decoding_is_signed_residue (-3) 14). lia. Defined.

(** X3: a register word of [w] bits, [w] from 1 to 32, comes back from
    decoding followed by encoding. *)
Theorem word_roundtrip (r w : Z) :
  1 ≤ w ≤ 32 → 0 ≤ r < 2 ^ w →
  res_bind (_to_pyint r w) (λ v, _from_pyint v w) = Return r.
Proof.
  intros Hw Hr. rewrite to_pyint_small by lia. simpl.
  rewrite from_pyint_mod by lia. f_equal.
  destruct (Z.ltb_spec r (2 ^ (w - 1))).
  - apply Z.mod_small. lia.
  - rewrite <- (Z_mod_plus_full (r - 2 ^ w) 1 (2 ^ w)).
    replace (r - 2 ^ w + 1 * 2 ^ w) with r by lia. apply Z.mod_small. lia.
Qed.

Lemma word_roundtrip_witness :
  res_bind (_to_pyint 16383 14) (λ v, _from_pyint v 14) = Return 16383.
Proof. apply (word_roundtrip 16383 14); lia. Defined.

(** ** What setup does to the attributes *)

Lemma setup_quiet_raised kwds m :
  raised (setup_quiet kwds m)
  = if bool_decide (all_recognized kwds m)
    then _setup (__class__ m) (values (state_of (setup_quiet kwds m)))
    else Some (KeyError (VInt 0)).
Proof.
  unfold setup_quiet.
  pose proof (bulk_set_raised kwds (set_callback_active false m)) as Hr.
  pose proof (bulk_set_frame kwds (set_callback_active false m)) as (Hcls & _).
  fold (all_recognized kwds (set_callback_active false m)) in Hr.
  change (all_recognized kwds (set_callback_active false m))
    with (all_recognized kwds m) in Hr.
  destruct (bulk_set kwds (set_callback_active false m)) as [m' | e m'];
    simpl in *.
  - case_bool_decide; [| done]. unfold call_setup_routine. simpl.
    rewrite Hcls.
    by destruct (_setup (__class__ m) (values m')) eqn:Hs; simpl; rewrite Hs.
  - by case_bool_decide.
Qed.

Lemma setup_quiet_events kwds m :
  ∃ evs,
    trace (state_of (setup_quiet kwds m))
    = (if bool_decide (all_recognized kwds m) then [EvSetup] else [])
      ++ evs ++ trace m
    ∧ Forall is_write evs.
Proof.
  unfold setup_quiet.
  pose proof (bulk_set_raised kwds (set_callback_active false m)) as Hr.
  fold (all_recognized kwds (set_callback_active false m)) in Hr.
  change (all_recognized kwds (set_callback_active false m))
    with (all_recognized kwds m) in Hr.
  destruct (bulk_set_trace kwds (set_callback_active false m))
    as (evs & Hevs & Hw).
  exists evs. split; [| done].
  destruct (bulk_set kwds (set_callback_active false m)) as [m' | e m'];
    simpl in *.
  - case_bool_decide; [| done]. unfold call_setup_routine. simpl.
    destruct (_setup _ _); simpl; by rewrite Hevs.
  - by case_bool_decide.
Qed.

(** X5: [setup] gives every setup attribute named in [kwds] the value given
    and leaves every other attribute as it was; this holds for the state it
    leaves on every exit, so that values applied before an exception stay
    applied. *)
Theorem setup_applies_overrides d kwds m k :
  descriptors_bound (__class__ m) →
  values (state_of (setup (S d) kwds m)) !! k
  = match kwds !! k with
    | Some v =>
        if bool_decide (k ∈ _setup_attributes (__class__ m)) then Some v
        else values m !! k
    | None => values m !! k
    end.
Proof.
  intros Hwf. rewrite setup_is_quiet by done. apply setup_quiet_values.
Qed.

(** X5 at work: [_setup] of [demo_strict] refuses the negative [y], and
    both values given are held when the exception leaves [setup]. *)
Lemma setup_applies_overrides_witness :
  raised (setup 1 {[ "x" := VInt 1; "y" := VInt (-2) ]} demo_strict)
  = Some (SetupError "y < 0") ∧
  values (state_of (setup 1 {[ "x" := VInt 1; "y" := VInt (-2) ]} demo_strict))
    !! "y" = Some (VInt (-2)).
Proof.
  split; [by vm_compute |].
  rewrite (setup_applies_overrides 0 _ demo_strict "y" demo_strict_bound).
  by vm_compute.
Defined.

(** X6: [setup] runs [_setup] once when every key of [kwds] is a setup
    attribute, and what [setup] raises is then what [_setup] raises on the
    new values; with any other key it raises [KeyError(0)] and [_setup] is
    not run. *)
Theorem setup_runs_routine_iff_recognized d kwds m :
  descriptors_bound (__class__ m) →
  raised (setup (S d) kwds m)
  = (if bool_decide (all_recognized kwds m)
     then _setup (__class__ m) (values (state_of (setup (S d) kwds m)))
     else Some (KeyError (VInt 0))) ∧
  ∃ evs,
    trace (state_of (setup (S d) kwds m))
    = (if bool_decide (all_recognized kwds m) then [EvSetup] else [])
      ++ evs ++ trace m
    ∧ EvSetup ∉ evs.
Proof.
  intros Hwf. rewrite setup_is_quiet by done.
  split; [apply setup_quiet_raised |].
  destruct (setup_quiet_events kwds m) as (evs & Hevs & Hw).
  exists evs. split; [done |]. intros Hin.
  rewrite Forall_forall in Hw. exact (Hw _ Hin).
Qed.

Lemma setup_runs_routine_iff_recognized_witness :
  raised (setup 1 {[ "gain" := VInt 3; "y" := VInt (-2) ]} demo_strict)
  = Some (KeyError (VInt 0)) ∧
  EvSetup ∉ trace (state_of (setup 1 {[ "gain" := VInt 3; "y" := VInt (-2) ]}
                               demo_strict)).
Proof.
  destruct (setup_runs_routine_iff_recognized
              0 {[ "gain" := VInt 3; "y" := VInt (-2) ]} demo_strict
              demo_strict_bound) as (Hr & evs & Htr & Hno).
  assert (Hbad : ¬ all_recognized {[ "gain" := VInt 3; "y" := VInt (-2) ]}
                   demo_strict).
  { intros Hall. specialize (Hall "gain" (VInt 3) ltac:(by vm_compute)).
    simpl in Hall. rewrite !elem_of_cons, elem_of_nil in Hall.
    by destruct Hall as [? | [? | []]]. }
  rewrite bool_decide_eq_false_2 in Hr, Htr by done.
  split; [done |]. rewrite Htr. simpl. rewrite elem_of_app. intros [? | Hin]; [done |].
  change (trace demo_strict) with (@nil event) in Hin.
  by apply elem_of_nil in Hin.
Defined.

(** ** Snapshots and named states *)

Lemma get_loop_ext keys acc m m' :
  values m' = values m → __class__ m' = __class__ m →
  get_attributes_loop keys acc m' = get_attributes_loop keys acc m.
Proof.
  intros Hv Hc. revert acc. induction keys as [| attr keys IH]; intros acc; simpl.
  - done.
  - unfold getattr. rewrite Hv, Hc. destruct (values m !! attr); simpl; [apply IH | done].
Qed.

Lemma get_loop_spec keys acc m kwds :
  get_attributes_loop keys acc m = Return kwds →
  (∀ k, k ∈ keys → is_Some (values m !! k)) ∧
  ∀ k, kwds !! k = if bool_decide (k ∈ keys) then values m !! k else acc !! k.
Proof.
  revert acc. induction keys as [| attr keys IH]; intros acc; simpl.
  - intros [= <-]. split; [by intros k ?%elem_of_nil | done].
  - unfold getattr. destruct (values m !! attr) as [v |] eqn:Hattr; simpl; [| done].
    intros Hloop. destruct (IH _ Hloop) as (Hsome & Hlook). split.
    + intros k [-> | Hk]%elem_of_cons; [by rewrite Hattr | by apply Hsome].
    + intros k. rewrite Hlook. destruct (decide (k = attr)) as [-> | Hne].
      * rewrite (bool_decide_eq_true_2 (attr ∈ attr :: keys)) by apply list_elem_of_here.
        case_bool_decide; [done |]. by rewrite lookup_insert_eq.
      * rewrite lookup_insert_ne by done.
        apply (f_equal (λ b : bool, if b then values m !! k else acc !! k)).
        apply bool_decide_ext. rewrite elem_of_cons. tauto.
Qed.

Lemma get_loop_returns keys acc m :
  (∀ k, k ∈ keys → is_Some (values m !! k)) →
  ∃ kwds, get_attributes_loop keys acc m = Return kwds.
Proof.
  revert acc. induction keys as [| attr keys IH]; intros acc Hsome; simpl.
  - eauto.
  - unfold getattr.
    destruct (Hsome attr (list_elem_of_here _ _)) as [v ->]. simpl.
    apply IH. intros k Hk. apply Hsome. by apply list_elem_of_further.
Qed.

(** The snapshot: the setup attributes, each with the value it holds. *)
Lemma snapshot_lookup m kwds k :
  get_setup_attributes m = Return kwds →
  kwds !! k
  = if bool_decide (k ∈ _setup_attributes (__class__ m)) then values m !! k
    else None.
Proof.
  intros Hget. destruct (get_loop_spec _ _ _ _ Hget) as (_ & Hlook).
  rewrite Hlook. by case_bool_decide.
Qed.

Lemma snapshot_recognized m kwds :
  get_setup_attributes m = Return kwds → all_recognized kwds m.
Proof.
  intros Hget k v Hk. rewrite (snapshot_lookup m kwds k Hget) in Hk.
  by case_bool_decide.
Qed.

(** X7: when every setup attribute holds a value, [get_setup_attributes]
    returns the dict of exactly the setup attributes with their values, and
    [setup] called with that dict changes no attribute value and raises
    nothing but what [_setup] raises. *)
Theorem snapshot_reapplied_is_identity d m :
  descriptors_bound (__class__ m) →
  (∀ k, k ∈ _setup_attributes (__class__ m) → is_Some (values m !! k)) →
  ∃ kwds,
    get_setup_attributes m = Return kwds ∧
    (∀ k, kwds !! k
          = if bool_decide (k ∈ _setup_attributes (__class__ m))
            then values m !! k else None) ∧
    values (state_of (setup (S d) kwds m)) = values m ∧
    raised (setup (S d) kwds m) = _setup (__class__ m) (values m).
Proof.
  intros Hwf Hsome.
  destruct (get_loop_returns _ ∅ m Hsome) as (kwds & Hget).
  exists kwds. split; [done |].
  split; [intros k; by apply snapshot_lookup |].
  assert (Hv : values (state_of (setup_quiet kwds m)) = values m).
  { apply map_eq. intros k. rewrite setup_quiet_values.
    rewrite (snapshot_lookup m kwds k Hget).
    case_bool_decide as Hin; [| done].
    by destruct (values m !! k). }
  rewrite setup_is_quiet by done. split; [done |].
  rewrite setup_quiet_raised, Hv.
  by rewrite bool_decide_eq_true_2 by by apply snapshot_recognized.
Qed.

Lemma snapshot_reapplied_is_identity_witness :
  get_setup_attributes demo = Return {[ "x" := VInt 0; "y" := VInt 0 ]} ∧
  ∃ kwds,
    get_setup_attributes demo = Return kwds ∧
    (∀ k, kwds !! k
          = if bool_decide (k ∈ _setup_attributes (__class__ demo))
            then values demo !! k else None) ∧
    values (state_of (setup 1 kwds demo)) = values demo ∧
    raised (setup 1 kwds demo) = _setup (__class__ demo) (values demo).
Proof.
  split; [by vm_compute |].
  apply (snapshot_reapplied_is_identity 0 demo demo_bound).
  intros k Hk. simpl in Hk. rewrite !elem_of_cons, elem_of_nil in Hk.
  destruct Hk as [-> | [-> | []]]; by vm_compute; eauto.
Defined.

(** *** The states branch *)

Lemma section_present m sec br :
  parent_c m = Some sec → instances sec !! name m = Some br →
  section_of m = sec.
Proof. intros Hc Hbr. unfold section_of. rewrite Hc. simpl. by rewrite Hbr. Qed.

(** The section that [c] leaves holds a branch for the instance. *)
Lemma section_of_branch m : instances (section_of m) !! name m = Some (c_dict m).
Proof.
  unfold c_dict, section_of.
  destruct (instances (default empty_section (parent_c m)) !! name m) eqn:Hi.
  - by rewrite Hi.
  - simpl. by rewrite lookup_insert_eq.
Qed.

Lemma saved_states_ext m m' :
  parent_c m' = parent_c m → name m' = name m →
  saved_states m' = saved_states m.
Proof.
  intros Hc Hn. unfold saved_states, c_states, section_of. simpl.
  by rewrite Hc, Hn.
Qed.

Lemma saved_states_c_states m : saved_states (c_states m).1 = saved_states m.
Proof.
  unfold saved_states at 1. unfold c_states at 1. cbn [snd fst].
  erewrite (section_present (c_states m).1);
    [| reflexivity | simpl; apply section_of_branch].
  done.
Qed.

Lemma saved_states_setitem s kwds m :
  saved_states (c_states_setitem s kwds m) = <[s := kwds]> (saved_states m).
Proof.
  unfold saved_states at 1. unfold c_states at 1. cbn [snd].
  erewrite (section_present (c_states_setitem s kwds m));
    [| reflexivity | simpl; apply section_of_branch].
  done.
Qed.

Lemma saved_states_c_setitem key v m :
  saved_states (c_setitem key v m) = saved_states m.
Proof.
  unfold saved_states at 1. unfold c_states at 1. cbn [snd].
  erewrite (section_present (c_setitem key v m));
    [| reflexivity | simpl; apply lookup_insert_eq].
  done.
Qed.

Lemma c_dict_states_setitem s kwds m : c_dict (c_states_setitem s kwds m) = c_dict m.
Proof.
  eapply c_dict_present; [reflexivity |]. simpl. apply section_of_branch.
Qed.

Lemma c_dict_c_states m : c_dict (c_states m).1 = c_dict m.
Proof.
  eapply c_dict_present; [reflexivity |]. simpl. apply section_of_branch.
Qed.

Lemma write_quiet_saved_states key v m :
  saved_states (write_quiet key v m) = saved_states m.
Proof.
  unfold write_quiet. simpl. destruct (_ && _).
  - etransitivity; [by apply saved_states_ext |].
    etransitivity; [apply saved_states_c_setitem |]. by apply saved_states_ext.
  - by apply saved_states_ext.
Qed.

Lemma apply_quiet_saved_states keys kwds m :
  saved_states (apply_quiet keys kwds m).1 = saved_states m.
Proof.
  revert kwds m. induction keys as [| key keys IH]; intros kwds m; simpl.
  - done.
  - destruct (kwds !! key); [| apply IH].
    by rewrite IH, write_quiet_saved_states.
Qed.

Lemma setup_quiet_saved_states kwds m :
  saved_states (state_of (setup_quiet kwds m)) = saved_states m.
Proof.
  assert (Hb : saved_states (state_of (bulk_set kwds (set_callback_active false m)))
               = saved_states m).
  { rewrite bulk_set_state. set (r := apply_quiet _ _ _).
    transitivity (saved_states r.1); [by apply saved_states_ext |].
    unfold r. rewrite apply_quiet_saved_states. by apply saved_states_ext. }
  etransitivity; [| exact Hb].
  by destruct (setup_quiet_state kwds m) as [-> | ->]; apply saved_states_ext.
Qed.

(** [save_state] when the snapshot can be taken. *)
Lemma save_state_returns s m kwds :
  get_setup_attributes m = Return kwds →
  save_state s None m
  = (Ok (c_states_setitem s kwds (c_states m).1),
     <[s := kwds]> (saved_states m)).
Proof.
  intros Hget. unfold save_state. cbn [c_states].
  unfold get_setup_attributes in *. cbn [__class__ set_parent_c].
  rewrite (get_loop_ext _ _ m) by done. by rewrite Hget.
Qed.

(** X8: for an instance not named [states], [save_state] stores the
    snapshot of the setup attributes under the name given, replacing what
    was stored under that name and nothing else: the other named states,
    the branch of the instance and the attribute values are as before, and
    [states] lists the name from then on. *)
Theorem save_state_records_snapshot s m kwds :
  name m ≠ "states" →
  get_setup_attributes m = Return kwds →
  let r := save_state s None m in
  raised r.1 = None ∧ r.2 !! s = Some kwds ∧
  saved_states (state_of r.1) = <[s := kwds]> (saved_states m) ∧
  (∀ s', s' ≠ s → saved_states (state_of r.1) !! s' = saved_states m !! s') ∧
  (state_names (state_of r.1)).2 = {[ s ]} ∪ (state_names m).2 ∧
  c_dict (state_of r.1) = c_dict m ∧
  values (state_of r.1) = values m ∧ trace (state_of r.1) = trace m.
Proof.
  intros _ Hget. cbv zeta. rewrite (save_state_returns s m kwds) by done.
  cbn [fst snd state_of raised].
  assert (Hs : saved_states (c_states_setitem s kwds (c_states m).1)
               = <[s := kwds]> (saved_states m))
    by (by rewrite saved_states_setitem, saved_states_c_states).
  split; [done |]. split; [apply lookup_insert_eq |]. split; [done |].
  split; [intros s' Hne; by rewrite Hs, lookup_insert_ne |].
  split; [| split; [by rewrite c_dict_states_setitem, c_dict_c_states | done]].
  unfold state_names.
  change (c_states ?x) with ((c_states x).1, saved_states x).
  cbn [snd]. by rewrite Hs, dom_insert_L.
Qed.

Lemma save_state_records_snapshot_witness :
  let r := save_state "idle" None demo in
  name demo ≠ "states" ∧
  saved_states demo !! "idle" = Some {[ "x" := VInt 1; "y" := VInt 2 ]} ∧
  saved_states (state_of r.1) !! "idle" = Some {[ "x" := VInt 0; "y" := VInt 0 ]}.
Proof.
  cbv zeta. split; [done |]. split; [by vm_compute |].
  destruct (save_state_records_snapshot "idle" demo {[ "x" := VInt 0; "y" := VInt 0 ]})
    as (_ & _ & -> & _); [done | by vm_compute |].
  apply lookup_insert_eq.
Defined.

Lemma load_state_values d s m stored k :
  descriptors_bound (__class__ m) →
  saved_states m !! s = Some stored →
  values (state_of (load_state (S d) s None m)) !! k
  = match stored !! k with
    | Some v =>
        if bool_decide (k ∈ _setup_attributes (__class__ m)) then Some v
        else values m !! k
    | None => values m !! k
    end.
Proof.
  intros Hwf Hs. rewrite (load_state_present (S d) s stored m Hs).
  rewrite setup_is_quiet by done. by rewrite setup_quiet_values.
Qed.

Lemma load_state_raised d s m stored :
  descriptors_bound (__class__ m) →
  saved_states m !! s = Some stored →
  raised (load_state (S d) s None m)
  = if bool_decide (all_recognized stored m)
    then _setup (__class__ m) (values (state_of (load_state (S d) s None m)))
    else Some (KeyError (VInt 0)).
Proof.
  intros Hwf Hs. rewrite (load_state_present (S d) s stored m Hs).
  rewrite setup_is_quiet by done. by rewrite setup_quiet_raised.
Qed.

(** The snapshot gives back the value of each setup attribute. *)
Lemma snapshot_restores m kwds k v0 :
  get_setup_attributes m = Return kwds →
  k ∈ _setup_attributes (__class__ m) →
  match kwds !! k with
  | Some v =>
      if bool_decide (k ∈ _setup_attributes (__class__ m)) then Some v else v0
  | None => v0
  end = values m !! k.
Proof.
  intros Hget Hk. destruct (get_loop_spec _ _ _ _ Hget) as (Hsome & _).
  rewrite (snapshot_lookup m kwds k Hget).
  rewrite !bool_decide_eq_true_2 by done.
  by destruct (Hsome k Hk) as [v ->].
Qed.

(** X9: [load_state] of a name under which a snapshot of the module was
    stored gives every setup attribute the value it had when the snapshot
    was taken, whatever the attributes hold by now, leaves every other
    attribute alone, and raises only what [_setup] raises. *)
Theorem load_state_restores_snapshot d s m m' kwds :
  descriptors_bound (__class__ m') →
  __class__ m' = __class__ m →
  get_setup_attributes m = Return kwds →
  saved_states m' !! s = Some kwds →
  let r := load_state (S d) s None m' in
  (∀ k, k ∈ _setup_attributes (__class__ m) →
        values (state_of r) !! k = values m !! k) ∧
  (∀ k, k ∉ _setup_attributes (__class__ m) →
        values (state_of r) !! k = values m' !! k) ∧
  raised r = _setup (__class__ m) (values (state_of r)).
Proof.
  intros Hwf Hcls Hget Hs. cbv zeta. split; [| split].
  - intros k Hk. rewrite (load_state_values d s m' kwds) by done.
    rewrite Hcls. by apply snapshot_restores.
  - intros k Hk. rewrite (load_state_values d s m' kwds) by done.
    rewrite (snapshot_lookup m kwds k Hget).
    by rewrite bool_decide_eq_false_2.
  - rewrite (load_state_raised d s m' kwds) by done.
    rewrite bool_decide_eq_true_2, Hcls; [done |].
    unfold all_recognized. rewrite Hcls. by apply snapshot_recognized.
Qed.

(** X9 at work: the state [idle] of the config was stored when [x] was 1
    and [y] was 2. *)
Lemma load_state_restores_snapshot_witness :
  let before := set_values {[ "x" := VInt 1; "y" := VInt 2 ]} demo in
  values (state_of (load_state 1 "idle" None demo)) !! "x" = values before !! "x".
Proof.
  cbv zeta.
  destruct (load_state_restores_snapshot 0 "idle"
              (set_values {[ "x" := VInt 1; "y" := VInt 2 ]} demo) demo
              {[ "x" := VInt 1; "y" := VInt 2 ]})
    as (Hin & _); [exact demo_bound | done | by vm_compute | by vm_compute |].
  apply Hin. apply list_elem_of_here.
Defined.

(** X10: for an instance not named [states], a named state survives a
    [setup] with any overrides: [setup] leaves the named states as
    [save_state] left them, and after [save_state], [setup] and
    [load_state] of the same name every setup attribute holds the value it
    had at [save_state]. *)
Theorem save_setup_load_roundtrip d d' s kwds m :
  name m ≠ "states" →
  descriptors_bound (__class__ m) →
  raised (save_state s None m).1 = None →
  let m1 := state_of (save_state s None m).1 in
  let m2 := state_of (setup (S d) kwds m1) in
  let m3 := state_of (load_state (S d') s None m2) in
  saved_states m2 = saved_states m1 ∧
  (∃ snap, get_setup_attributes m = Return snap
           ∧ saved_states m2 !! s = Some snap) ∧
  ∀ k, k ∈ _setup_attributes (__class__ m) → values m3 !! k = values m !! k.
Proof.
  intros _ Hwf Hok. cbv zeta.
  destruct (get_setup_attributes m) as [snap | e] eqn:Hget.
  2:{ exfalso. revert Hok. unfold save_state. cbn [c_states].
      unfold get_setup_attributes in *. cbn [__class__ set_parent_c].
      rewrite (get_loop_ext _ _ m) by done. by rewrite Hget. }
  rewrite (save_state_returns s m snap) by done. cbn [fst state_of].
  set (m1 := c_states_setitem s snap (c_states m).1).
  assert (Hwf1 : descriptors_bound (__class__ m1)) by done.
  rewrite setup_is_quiet by done.
  destruct (setup_quiet_frame kwds m1) as (Hcls & _).
  pose proof (setup_quiet_saved_states kwds m1) as Hkeep.
  set (m2 := state_of (setup_quiet kwds m1)) in *.
  change (__class__ m2 = __class__ m) in Hcls.
  assert (Hs : saved_states m2 !! s = Some snap).
  { rewrite Hkeep. unfold m1.
    rewrite saved_states_setitem. apply lookup_insert_eq. }
  split; [done |]. split; [by exists snap |].
  intros k Hk.
  rewrite (load_state_values d' s m2 snap) by (by rewrite ?Hcls).
  rewrite Hcls. by apply snapshot_restores.
Qed.

Lemma save_setup_load_roundtrip_witness :
  let m1 := state_of (save_state "s" None demo).1 in
  let m2 := state_of (setup 1 {[ "x" := VInt 42 ]} m1) in
  let m3 := state_of (load_state 1 "s" None m2) in
  name demo ≠ "states" ∧
  values m2 !! "x" = Some (VInt 42) ∧ values m3 !! "x" = values demo !! "x".
Proof.
  cbv zeta. split; [done |]. split; [by vm_compute |].
  destruct (save_setup_load_roundtrip 0 0 "s" {[ "x" := VInt 42 ]} demo)
    as (_ & _ & Hv).
  - done.
  - exact demo_bound.
  - by vm_compute.
  - apply Hv. apply list_elem_of_here.
Defined.

(** ** Ownership: transfer, release, scoped use *)

(** X11: ownership passes from one owner to the next without a release in
    between: both assignments return, the owner is the last one given, the
    hook is told the owner before, autosave stays off, and neither the
    attribute values nor the config are touched, no [setup] being run. *)
Theorem ownership_transfer d d' a b m :
  a ≠ VNone → b ≠ VNone →
  ∃ m1 m2,
    set_owner_to d a m = Ok m1 ∧ set_owner_to d' b m1 = Ok m2 ∧
    _owner m2 = b ∧ _autosave_active m2 = false ∧
    values m2 = values m ∧ parent_c m2 = parent_c m ∧
    trace m2
    = [EvChangeOwnership; EvOwnershipChanged a b;
       EvChangeOwnership; EvOwnershipChanged (_owner m) a] ++ trace m.
Proof.
  intros Ha Hb. rewrite (acquire_returns d a m Ha).
  eexists _, _. split; [reflexivity |].
  rewrite acquire_returns by done. split; [reflexivity |]. done.
Qed.

Lemma ownership_transfer_witness :
  ∃ m1 m2,
    set_owner_to 0 (VStr "na") demo = Ok m1 ∧
    set_owner_to 0 (VStr "scope") m1 = Ok m2 ∧
    _owner m2 = VStr "scope" ∧ _autosave_active m2 = false ∧
    values m2 = values demo ∧ parent_c m2 = parent_c demo ∧
    trace m2
    = [EvChangeOwnership; EvOwnershipChanged (VStr "na") (VStr "scope");
       EvChangeOwnership; EvOwnershipChanged (_owner demo) (VStr "na")]
      ++ trace demo.
Proof. by apply (ownership_transfer 0 0 (VStr "na") (VStr "scope") demo). Defined.

Lemma release_events d m :
  descriptors_bound (__class__ m) →
  ∃ evs,
    trace (state_of (free (S d) m))
    = match raised (free (S d) m) with
       | Some _ => []
       | None => [EvChangeOwnership]
       end
      ++ evs ++ EvOwnershipChanged (_owner m) VNone :: trace m
    ∧ Forall (λ e, is_write e ∨ e = EvSetup) evs.
Proof.
  intros Hwf. destruct (c_dict m !! "self") as [v |] eqn:Hself.
  - rewrite (release_blocked (S d) m v Hself). by exists [].
  - rewrite release_unfold by done.
    destruct (setup_quiet_trace (c_dict m) (released m)) as (evs & Hevs & Hall).
    exists evs. split; [| done].
    destruct (setup_quiet _ _) as [m' | e m']; simpl in *; by rewrite Hevs.
Qed.

(** X12: the signal [change_ownership] is emitted by a release that
    returns, and by no release that raises: when the re-setup fails, the
    hook [ownership_changed] has run, the owner is [None] and autosave is
    on, but no signal follows. *)
Theorem failed_release_emits_no_signal d m :
  descriptors_bound (__class__ m) →
  ∃ evs,
    trace (state_of (free (S d) m))
    = match raised (free (S d) m) with
       | Some _ => []
       | None => [EvChangeOwnership]
       end
      ++ evs ++ EvOwnershipChanged (_owner m) VNone :: trace m
    ∧ (EvChangeOwnership ∉ evs) ∧
    _owner (state_of (free (S d) m)) = VNone ∧
    _autosave_active (state_of (free (S d) m)) = true.
Proof.
  intros Hwf. destruct (release_events d m Hwf) as (evs & Htr & Hall).
  destruct (release_owner d m Hwf) as (_ & Ha & Ho).
  exists evs. split; [done |]. split; [| done].
  intros Hin. rewrite Forall_forall in Hall. by destruct (Hall _ Hin).
Qed.

Lemma failed_release_emits_no_signal_witness :
  raised (free 1 demo_stale) = Some (KeyError (VInt 0)) ∧
  ∃ evs,
    trace (state_of (free 1 demo_stale))
    = match raised (free 1 demo_stale) with
       | Some _ => []
       | None => [EvChangeOwnership]
       end
      ++ evs ++ EvOwnershipChanged (_owner demo_stale) VNone :: trace demo_stale
    ∧ (EvChangeOwnership ∉ evs) ∧
    _owner (state_of (free 1 demo_stale)) = VNone ∧
    _autosave_active (state_of (free 1 demo_stale)) = true.
Proof.
  split; [by vm_compute |].
  exact (failed_release_emits_no_signal 0 demo_stale demo_stale_bound).
Defined.

(** X13: a module used in a [with] block is free when the block is left,
    by its end or by an exception: whatever the body does to the instance,
    short of changing its class, the owner is [None] and autosave is on
    afterwards, and the block returns only if the body returned. *)
Theorem with_block_frees d body m :
  descriptors_bound (__class__ m) →
  __class__ (state_of (body m)) = __class__ m →
  let r := with_module (S d) body m in
  _owner (state_of r) = VNone ∧ _autosave_active (state_of r) = true ∧
  (raised r = None → raised (body m) = None).
Proof.
  intros Hwf Hcls. unfold with_module, __enter__, __exit__. cbv zeta.
  fold (free (S d) (state_of (body m))).
  assert (Hwf' : descriptors_bound (__class__ (state_of (body m))))
    by (by rewrite Hcls).
  destruct (release_owner d _ Hwf') as (_ & Ha & Ho).
  destruct (body m) as [m1 | e m1]; cbn [state_of] in *.
  - fold (free (S d) m1). by rewrite Ha, Ho.
  - fold (free (S d) m1).
    destruct (free (S d) m1) as [m2 | e' m2]; cbn [state_of] in *; by rewrite Ha, Ho.
Qed.

(** X13 at work: the body assigns to the read-only [c] and raises. *)
Lemma with_block_frees_witness :
  let owned := state_of (set_owner_to 1 (VStr "na") demo) in
  let r := with_module 1 (setattr 1 "c" (VInt 1)) owned in
  _owner owned = VStr "na" ∧
  raised r = Some (AttributeError "can't set attribute") ∧
  _owner (state_of r) = VNone ∧ _autosave_active (state_of r) = true.
Proof.
  cbv zeta. split; [by vm_compute |]. split; [by vm_compute |].
  destruct (with_block_frees 0 (setattr 1 "c" (VInt 1))
              (state_of (set_owner_to 1 (VStr "na") demo)))
    as (Ho & Ha & _).
  - repeat (constructor; [by vm_compute |]). constructor.
  - by vm_compute.
  - by split.
Defined.

(** ** The widget *)

Lemma write_quiet_off key v m :
  _autosave_active m = false →
  write_quiet key v m = log (EvSet key v) (set_values (<[key := v]> (values m)) m).
Proof. intros Hoff. unfold write_quiet. simpl. by rewrite Hoff. Qed.

(** With both flags off, the defaults a widget writes into descriptors are
    stored and nothing else happens. *)
Lemma widget_init_quiet d writes m :
  Forall (λ kv, members (__class__ m) !! kv.1 = Some MAttribute) writes →
  _callback_active m = false → _autosave_active m = false →
  ∃ m' evs,
    widget_init d writes m = Ok m' ∧ same_frame m m' ∧
    parent_c m' = parent_c m ∧
    trace m' = evs ++ trace m ∧ Forall is_set evs.
Proof.
  revert m. induction writes as [| [key v] writes IH]; intros m Hw Hcb Hoff.
  - exists m, []. by repeat split.
  - inversion Hw as [| ? ? Hkey Hrest]; subst. simpl in Hkey. simpl.
    unfold setattr. rewrite setattr_descriptor_quiet by done.
    rewrite write_quiet_off by done. cbn [bind].
    set (m1 := log (EvSet key v) _).
    destruct (IH m1) as (m' & evs & Hr & Hframe & Hc & Htr & Hevs); try done.
    exists m', (evs ++ [EvSet key v]). split; [done |].
    split; [by eapply same_frame_trans; [| exact Hframe] |].
    split; [done |]. split; [by rewrite Htr, <- app_assoc |].
    apply Forall_app. split; [done |]. by repeat constructor.
Qed.

(** X14: whatever defaults the widget writes into attribute descriptors
    while it is built, [create_widget] saves nothing to the config, calls
    nothing back and runs no [_setup]; it raises what the widget class
    raises, and both flags are [True] when it is left. *)
Theorem create_widget_is_silent d m :
  Forall (λ kv, members (__class__ m) !! kv.1 = Some MAttribute)
    (gui_defaults (_widget_class (__class__ m))) →
  let r := create_widget d m in
  raised r = init_error (_widget_class (__class__ m)) ∧
  _callback_active (state_of r) = true ∧ _autosave_active (state_of r) = true ∧
  parent_c (state_of r) = parent_c m ∧
  ∃ evs, trace (state_of r) = evs ++ EvWidget :: trace m ∧ Forall is_set evs.
Proof.
  intros Hw. unfold create_widget, call_widget_class. cbv zeta.
  set (m0 := log EvWidget (set_autosave_active false (set_callback_active false m))).
  destruct (widget_init_quiet d (gui_defaults (_widget_class (__class__ m))) m0)
    as (m' & evs & Hr & Hframe & Hc & Htr & Hevs); try done.
  change (__class__ (set_autosave_active false (set_callback_active false m)))
    with (__class__ m).
  change (log EvWidget (set_autosave_active false (set_callback_active false m)))
    with m0.
  rewrite Hr. cbn [bind].
  destruct (init_error _) as [e |]; cbn [bind finally raised state_of].
  - split; [done |]. split; [done |]. split; [done |]. split; [done |].
    by exists evs.
  - split; [done |]. split; [done |]. split; [done |]. split; [done |].
    by exists evs.
Qed.

Lemma create_widget_is_silent_witness :
  values (state_of (create_widget 1 gui_module)) !! "x" = Some (VInt 10) ∧
  c_dict (state_of (create_widget 1 gui_module)) !! "x" = Some (VInt 5) ∧
  parent_c (state_of (create_widget 1 gui_module)) = parent_c gui_module.
Proof.
  split; [by vm_compute |]. split; [by vm_compute |].
  destruct (create_widget_is_silent 1 gui_module) as (_ & _ & _ & Hc & _);
    [| exact Hc].
  repeat (constructor; [by vm_compute |]). constructor.
Defined.

(** ** Loading the setup attributes, again *)

Lemma config_filter_lookup m k :
  filter (λ kv : string * value, kv.1 ∈ _setup_attributes (__class__ m))
    (c_dict m) !! k
  = if bool_decide (k ∈ _setup_attributes (__class__ m)) then c_dict m !! k
    else None.
Proof.
  destruct (c_dict m !! k) as [v |] eqn:Hk.
  - case_bool_decide as Hin.
    + by apply map_lookup_filter_Some.
    + apply map_lookup_filter_None. right. intros v' Hv' Hp. by apply Hin.
  - transitivity (@None value); [| by case_bool_decide].
    apply map_lookup_filter_None. by left.
Qed.

Lemma load_setup_attributes_unfold d m :
  descriptors_bound (__class__ m) →
  load_setup_attributes d m
  = bulk_set (filter (λ kv : string * value,
                        kv.1 ∈ _setup_attributes (__class__ m)) (c_dict m))
      (c m).1.
Proof.
  intros Hwf. unfold load_setup_attributes. cbn [c fst snd].
  by rewrite set_setup_attributes_quiet.
Qed.

Lemma load_setup_attributes_values d m k :
  descriptors_bound (__class__ m) →
  values (state_of (load_setup_attributes d m)) !! k
  = match c_dict m !! k with
    | Some v =>
        if bool_decide (k ∈ _setup_attributes (__class__ m)) then Some v
        else values m !! k
    | None => values m !! k
    end.
Proof.
  intros Hwf. rewrite load_setup_attributes_unfold by done.
  rewrite bulk_set_values. change (__class__ (c m).1) with (__class__ m).
  rewrite config_filter_lookup. change (values (c m).1) with (values m).
  destruct (c_dict m !! k); by case_bool_decide.
Qed.

Lemma load_setup_attributes_config d m :
  descriptors_bound (__class__ m) →
  c_dict (state_of (load_setup_attributes d m)) = c_dict m.
Proof.
  intros Hwf. rewrite load_setup_attributes_unfold by done.
  rewrite bulk_set_state. set (r := apply_quiet _ _ _).
  transitivity (c_dict r.1); [by apply c_dict_ext |].
  assert (Hm0 : c_dict (set_callback_active false (c m).1) = c_dict m).
  { transitivity (c_dict (c m).1); [by apply c_dict_ext | apply c_dict_c]. }
  unfold r. rewrite apply_quiet_c_dict; [done |].
  intros k v Hk. rewrite Hm0.
  change (__class__ (c m).1) with (__class__ m) in Hk.
  rewrite config_filter_lookup in Hk. by case_bool_decide.
Qed.

(** X15: [load_setup_attributes] leaves the content of the config branch
    as it found it, also while autosave is on, and loading a second time
    changes no attribute value. *)
Theorem load_setup_attributes_is_stable d d' m :
  descriptors_bound (__class__ m) →
  let m1 := state_of (load_setup_attributes d m) in
  c_dict m1 = c_dict m ∧
  values (state_of (load_setup_attributes d' m1)) = values m1.
Proof.
  intros Hwf. cbv zeta.
  pose proof (load_setup_attributes_config d m Hwf) as Hc.
  split; [done |].
  assert (Hcls : __class__ (state_of (load_setup_attributes d m)) = __class__ m).
  { rewrite load_setup_attributes_unfold by done.
    by destruct (bulk_set_frame (filter (λ kv : string * value,
                   kv.1 ∈ _setup_attributes (__class__ m)) (c_dict m)) (c m).1)
      as (-> & _). }
  apply map_eq. intros k.
  rewrite load_setup_attributes_values by by rewrite Hcls.
  rewrite Hc, Hcls. rewrite (load_setup_attributes_values d m k Hwf).
  destruct (c_dict m !! k); [| done]. by case_bool_decide.
Qed.

Lemma load_setup_attributes_is_stable_witness :
  _autosave_active demo_stale = true ∧
  c_dict (state_of (load_setup_attributes 1 demo_stale)) = c_dict demo_stale.
Proof.
  split; [done |].
  by destruct (load_setup_attributes_is_stable 1 1 demo_stale demo_stale_bound).
Defined.

(** ** A write outside setup *)

(** [setup()] without overrides: [_setup] and nothing else. *)
Lemma setup_quiet_empty m :
  values (state_of (setup_quiet ∅ m)) = values m ∧
  trace (state_of (setup_quiet ∅ m)) = EvSetup :: trace m ∧
  raised (setup_quiet ∅ m) = _setup (__class__ m) (values m).
Proof.
  unfold setup_quiet, bulk_set. rewrite apply_quiet_empty. cbn [fst snd].
  rewrite bool_decide_eq_true_2 by done.
  unfold call_setup_routine. simpl.
  by destruct (_setup (__class__ m) (values m)) eqn:Hs.
Qed.

(** X17: an assignment to an attribute descriptor stores the value first;
    when callbacks are active and the attribute is a callback attribute it
    then runs [setup()] once, so that [_setup] sees the new value, and the
    assignment raises what [_setup] raises, the value staying stored; in
    every other case the assignment returns and [_setup] is not run. *)
Theorem write_reruns_setup d key v m :
  descriptors_bound (__class__ m) →
  members (__class__ m) !! key = Some MAttribute →
  let r := setattr (S d) key v m in
  let fires :=
    _callback_active m
    && bool_decide (key ∈ _callback_attributes (__class__ m)) in
  values (state_of r) = <[key := v]> (values m) ∧
  raised r
  = (if fires then _setup (__class__ m) (<[key := v]> (values m)) else None) ∧
  _callback_active (state_of r) = _callback_active m ∧
  ∃ evs,
    trace (state_of r)
    = (if fires then [EvSetup; EvCallback] else []) ++ evs ++ trace m
    ∧ Forall is_write evs.
Proof.
  intros Hwf Hmem. cbv zeta. unfold setattr. rewrite setattr_descriptor by done.
  destruct (write_quiet_frame key v m) as (Hcls & _ & Hcb & _).
  pose proof (write_quiet_values key v m) as Hv.
  destruct (write_quiet_trace key v m) as (evs & Htr & Hevs).
  destruct (_callback_active m) eqn:Hflag; cbn [andb].
  - case_bool_decide.
    + unfold _callback.
      rewrite setup_is_quiet by (simpl; by rewrite Hcls).
      destruct (setup_quiet_empty (log EvCallback (write_quiet key v m)))
        as (-> & -> & ->).
      destruct (setup_quiet_frame ∅ (log EvCallback (write_quiet key v m)))
        as (_ & _ & -> & _).
      simpl. rewrite Hcls, Hv, Htr. repeat split; try done. by exists evs.
    + cbn [state_of raised]. rewrite Hv, Htr, Hcb. repeat split; try done.
      by exists evs.
  - cbn [state_of raised]. rewrite Hv, Htr, Hcb. repeat split; try done.
    by exists evs.
Qed.

(** X17 at work: [y] is set to a negative value on [demo_strict], whose
    [_setup] refuses it. *)
Lemma write_reruns_setup_witness :
  raised (setattr 1 "y" (VInt (-5)) (set_values ∅ demo_strict))
  = Some (SetupError "y < 0") ∧
  values (state_of (setattr 1 "y" (VInt (-5)) (set_values ∅ demo_strict)))
  = {[ "y" := VInt (-5) ]}.
Proof.
  destruct (write_reruns_setup 0 "y" (VInt (-5)) (set_values ∅ demo_strict))
    as (Hv & Hr & _).
  - repeat (constructor; [by vm_compute |]). constructor.
  - by vm_compute.
  - split; [rewrite Hr; by vm_compute | exact Hv].
Defined.

(** ** Naming the descriptors *)

Lemma name_attributes_app l1 l2 names :
  name_attributes (l1 ++ l2) names = name_attributes l2 (name_attributes l1 names).
Proof.
  revert names. induction l1 as [| [n [i |]] l1 IH]; intros names; simpl; auto.
Qed.

Lemma name_attributes_other classDict names id :
  id ∉ attribute_ids classDict →
  name_attributes classDict names !! id = names !! id.
Proof.
  revert names. induction classDict as [| [n [i |]] l IH]; intros names Hid; simpl in *.
  - done.
  - apply not_elem_of_cons in Hid as [Hne Hid].
    rewrite IH by done. by rewrite lookup_insert_ne.
  - by apply IH.
Qed.

Lemma attribute_ids_elem classDict n id :
  (n, EAttribute id) ∈ classDict → id ∈ attribute_ids classDict.
Proof.
  induction classDict as [| [n' [i |]] l IH]; simpl.
  - by intros ?%elem_of_nil.
  - intros [[= -> ->] | Hin]%elem_of_cons; [apply list_elem_of_here |].
    apply list_elem_of_further. by apply IH.
  - intros [[=] | Hin]%elem_of_cons. by apply IH.
Qed.

(** X18: after [ModuleMetaClass.__new__] a descriptor carries the name of
    the last field of the class dictionary that is bound to it: of its field
    when no descriptor object is bound to two fields, of one of them only
    when it is shared; descriptors the class does not bind keep their
    names. *)
Theorem descriptors_named_after_fields classDict names :
  (∀ l1 n id l2, classDict = l1 ++ (n, EAttribute id) :: l2 →
                 id ∉ attribute_ids l2 →
                 name_attributes classDict names !! id = Some n) ∧
  (NoDup (attribute_ids classDict) →
   ∀ n id, (n, EAttribute id) ∈ classDict →
           name_attributes classDict names !! id = Some n) ∧
  (∀ id, id ∉ attribute_ids classDict →
         name_attributes classDict names !! id = names !! id).
Proof.
  assert (Hlast : ∀ l1 n id l2, classDict = l1 ++ (n, EAttribute id) :: l2 →
                    id ∉ attribute_ids l2 →
                    name_attributes classDict names !! id = Some n).
  { intros l1 n id l2 -> Hid. rewrite name_attributes_app. simpl.
    rewrite name_attributes_other by done. apply lookup_insert_eq. }
  split; [exact Hlast |]. split; [| intros id; apply name_attributes_other].
  intros Hnd n id Hin.
  apply list_elem_of_split in Hin as (l1 & l2 & Heq).
  apply (Hlast l1 n id l2 Heq). subst classDict.
  assert (Hids : ∀ a b, attribute_ids (a ++ b) = attribute_ids a ++ attribute_ids b).
  { intros a b. induction a as [| [n' [i |]] a IH]; simpl; by rewrite ?IH. }
  rewrite Hids in Hnd. simpl in Hnd.
  apply NoDup_app in Hnd as (_ & _ & Hnd). by apply NoDup_cons in Hnd as [? _].
Qed.

Lemma descriptors_named_after_fields_witness :
  name_attributes [("x", EAttribute 0); ("help", EOther); ("y", EAttribute 1)] ∅
    !! 1%nat = Some "y" ∧
  name_attributes [("gain", EAttribute 0); ("offset", EAttribute 0)] ∅
    !! 0%nat = Some "offset".
Proof.
  split.
  - destruct (descriptors_named_after_fields
                [("x", EAttribute 0); ("help", EOther); ("y", EAttribute 1)] ∅)
      as (_ & Hnd & _).
    apply Hnd.
    + repeat (constructor; [by rewrite ?elem_of_cons, ?elem_of_nil; intuition lia |]).
      constructor.
    + do 2 apply list_elem_of_further. apply list_elem_of_here.
  - destruct (descriptors_named_after_fields
                [("gain", EAttribute 0); ("offset", EAttribute 0)] ∅)
      as (Hlast & _).
    apply (Hlast [("gain", EAttribute 0)] "offset" 0%nat []); [done |].
    apply not_elem_of_nil.
Defined.
